(** * Souvenir shop queries: a model of [queries.js] and its properties

    The class [Queries] of [queries.js] is a thin layer over two MongoDB
    collections reached through Mongoose models: [_Souvenir] (the catalog)
    and [_Cart] (one cart per login).  Every method is one store call or a
    short sequence of store calls.

    The development has three layers:
    - the documents, as the two schemas of the constructor declare them;
    - [Mongo], [RatingSort] and [Regex]: the store operations the methods
      call ([find] with a filter, [limit], [deleteMany], [findOneAndUpdate],
      the aggregation stages, [sort] and [$regex]), each written as a
      function on the list of documents of a collection in its natural order;
    - [Queries]: the methods, line for line over [Mongo].

    Numbers (the schema's [Number]) are exact rationals [Q]; a [Date] is its
    number of milliseconds since the epoch; an [ObjectId] is the 96-bit value
    it holds.  An [async] method is a function from the database to an outcome
    and the database it leaves behind; [await] is the bind of that monad, and a
    thrown exception (a rejected promise) is the outcome [Err]. *)

From Stdlib Require Import String Ascii.
From Stdlib Require Import List Bool ZArith NArith QArith Lia.
From Stdlib Require Import Sorting.Sorted Sorting.Permutation Sorting.Mergesort.
Import ListNotations.

Local Open Scope Q_scope.

(** ** Documents *)

Definition ObjectId := N.
Definition Date := Z.

(** A review, as the sub-schema of [reviews] lists its fields.  No field has a
    default in the schema, so [isApproved] is absent ([None]) on a stored
    review that was written without it. *)
Module Review.
Record t : Type := mk {
  id : string;
  login : string;
  date : Date;
  text : string;
  rating : Q;
  isApproved : option bool
}.
End Review.

Module Souvenir.
Record t : Type := mk {
  _id : ObjectId;
  name : string;
  tags : list string;
  reviews : list Review.t;
  image : string;
  price : Q;
  amount : Q;
  country : string;
  rating : Q;
  isRecent : bool
}.

Definition with_reviews (rs : list Review.t) (s : t) : t :=
  mk (_id s) (name s) (tags s) rs (image s) (price s) (amount s)
     (country s) (rating s) (isRecent s).

Definition with_rating (q : Q) (s : t) : t :=
  mk (_id s) (name s) (tags s) (reviews s) (image s) (price s) (amount s)
     (country s) q (isRecent s).
End Souvenir.

Module CartItem.
Record t : Type := mk {
  souvenirId : ObjectId;
  amount : Q
}.
End CartItem.

Module Cart.
Record t : Type := mk {
  login : string;
  items : list CartItem.t
}.
End Cart.

(** The database: the collection behind [_Souvenir] and the one behind
    [_Cart].  The [$lookup] stage of [getCartSum] names its foreign collection
    ['souvenirs']; the model is the deployment in which [souvenirsCollection]
    is that collection. *)
Record Db : Type := mkDb {
  souvenirs : list Souvenir.t;
  carts : list Cart.t
}.

(** ** Outcomes of a call *)

(** [TypeError] is what the JavaScript runtime throws when a property of
    [undefined] is read; it is the only error the methods themselves can
    raise.  The other three are the error kinds a caller may expect of a
    data-access layer; no line of [queries.js] constructs them. *)
Inductive error : Type :=
  | TypeError
  | NotFound
  | ValidationRejected
  | StoreUnavailable.

Inductive outcome (A : Type) : Type :=
  | Ok (a : A)
  | Err (e : error).
Arguments Ok {A} a.
Arguments Err {A} e.

Definition Async (A : Type) : Type := Db -> outcome A * Db.

Definition resolve {A} (a : A) : Async A := fun db => (Ok a, db).
Definition reject {A} (e : error) : Async A := fun db => (Err e, db).

Definition await {A B} (c : Async A) (k : A -> Async B) : Async B :=
  fun db =>
    match c db with
    | (Ok a, db') => k a db'
    | (Err e, db') => (Err e, db')
    end.

Declare Scope async_scope.
Delimit Scope async_scope with async.
Notation "x <- 'await' c ;; k" := (await c (fun x => k))
  (at level 100, c at next level, right associativity) : async_scope.

(** ** The store *)

Module Mongo.

(** [find(filter)]: the matching documents, in natural order. *)
Definition find {D} (filter : D -> bool) (coll : list D) : list D :=
  List.filter filter coll.

(** [limit(n)] on a cursor.  A positive [n] keeps the first [n] documents;
    [0] is no limit at all; a negative [n] is sent as its absolute value with
    the cursor closed after the first batch, which the model takes to be
    large enough to hold them. *)
Definition limit {D} (n : Z) (docs : list D) : list D :=
  if (n =? 0)%Z then docs else firstn (Z.abs_nat n) docs.

(** What a delete reports: [{ n, ok, deletedCount }].  [ok] is [1]; [n], and
    [deletedCount] beside it, are the number of documents removed.  The
    comment above [deleteOutOfStockSouvenirs] names [ok] and [n]. *)
Record WriteResult : Type := mkWriteResult {
  ok : Z;
  n : nat;
  deletedCount : nat
}.

(** Reading a property of the report by its name: a number for the three
    names the object has, [undefined] (here [None]) for any other. *)
Definition property (r : WriteResult) (name : string) : option Z :=
  if String.eqb name "ok" then Some (ok r)
  else if String.eqb name "n" then Some (Z.of_nat (n r))
  else if String.eqb name "deletedCount" then Some (Z.of_nat (deletedCount r))
  else None.

(** [deleteMany(filter)]: removes every matching document. *)
Definition deleteMany {D} (filter : D -> bool) (coll : list D)
  : WriteResult * list D :=
  (mkWriteResult 1 (length (List.filter filter coll))
                 (length (List.filter filter coll)),
   List.filter (fun d => negb (filter d)) coll).

(** [findOneAndUpdate(filter, update)]: applies [update] to the first
    matching document and returns that document as it was before the
    update ([null], here [None], when nothing matches). *)
Fixpoint findOneAndUpdate {D} (filter : D -> bool) (update : D -> D)
    (coll : list D) : option D * list D :=
  match coll with
  | [] => (None, [])
  | d :: rest =>
      if filter d then (Some d, update d :: rest)
      else let (r, rest') := findOneAndUpdate filter update rest in
           (r, d :: rest')
  end.

(** *** Aggregation stages *)

(** [{ $match: ... }]. *)
Definition match_ {D} (filter : D -> bool) (docs : list D) : list D :=
  List.filter filter docs.

(** [{ $unwind: '$field' }]: one output document per element of the array
    field, the array replaced by that element; a document whose array is
    empty yields nothing. *)
Definition unwind {D E} (field : D -> list E) (docs : list D)
  : list (D * E) :=
  flat_map (fun d => map (fun e => (d, e)) (field d)) docs.

(** [{ $replaceRoot: { newRoot: '$field' } }] after an [$unwind] of the
    same field: the element becomes the document. *)
Definition replaceRoot {D E} (docs : list (D * E)) : list E :=
  map snd docs.

(** [{ $lookup: { from, localField, foreignField, as } }]: each document
    gets, as a new array field, the documents of [from] whose foreign field
    equals its local field. *)
Definition lookup {D F} (from : list F) (joins : D -> F -> bool)
    (docs : list D) : list (D * list F) :=
  map (fun d => (d, List.filter (joins d) from)) docs.

(** [$unwind] of the array field that [$lookup] added. *)
Definition unwind_as {D F} (docs : list (D * list F)) : list (D * F) :=
  flat_map (fun p => map (fun f => (fst p, f)) (snd p)) docs.

(** The accumulator [$sum]: starts at [0] and adds each value. *)
Definition sum_acc (vals : list Q) : Q := fold_left Qplus vals 0.

(** The accumulator [$avg]: the sum of the values over their number. *)
Definition avg_acc (vals : list Q) : Q :=
  sum_acc vals / inject_Z (Z.of_nat (length vals)).

(** [{ $group: { _id: null, f: { <acc>: <expr> } } }]: all input documents
    fall in the one group [null]; the stage emits one document for each
    group that has a member, so none when its input is empty. *)
Definition group_null {D} (acc : list Q -> Q) (expr : D -> Q)
    (docs : list D) : list Q :=
  match docs with
  | [] => []
  | _ :: _ => [acc (map expr docs)]
  end.

End Mongo.

(** [sort({ rating: -1 })]: descending by rating.  The store fixes no order
    among documents of equal rating; the model takes the merge sort of the
    standard library, which keeps them in natural order. *)
Module RatingDesc <: Orders.TotalLeBool.
Definition t := Souvenir.t.
Definition leb (a b : t) : bool :=
  Qle_bool (Souvenir.rating b) (Souvenir.rating a).
Lemma leb_total : forall a b, leb a b = true \/ leb b a = true.
Proof.
  intros a b. unfold leb.
  destruct (Qlt_le_dec (Souvenir.rating a) (Souvenir.rating b)) as [H | H].
  - right. apply Qle_bool_iff, Qlt_le_weak, H.
  - left. apply Qle_bool_iff, H.
Qed.
End RatingDesc.

Module RatingSort := Sort RatingDesc.

(** ** Regular expressions

    [$regex] takes its operand as the source text of a regular expression.
    The model covers the patterns made of ordinary characters and the dot;
    for a pattern that uses any other metacharacter [compile] gives [None]
    and the model says nothing. *)
Module Regex.

Inductive atom : Type :=
  | Lit (c : ascii)
  | AnyChar.

(** The characters with a meaning of their own outside a character class. *)
Definition metachars : list ascii :=
  ["\"; "^"; "$"; "."; "["; "]"; "|"; "("; ")"; "?"; "*"; "+"; "{"; "}"]%char.

Definition is_meta (c : ascii) : bool := existsb (Ascii.eqb c) metachars.

Fixpoint compile (pattern : string) : option (list atom) :=
  match pattern with
  | EmptyString => Some []
  | String c rest =>
      match compile rest with
      | None => None
      | Some atoms =>
          if Ascii.eqb c "." then Some (AnyChar :: atoms)
          else if is_meta c then None
          else Some (Lit c :: atoms)
      end
  end.

(** Option [i]: letters are compared without regard to case. *)
Definition lower (c : ascii) : ascii :=
  let k := nat_of_ascii c in
  if ((65 <=? k) && (k <=? 90))%nat then ascii_of_nat (k + 32) else c.

(** The dot matches any character but the line feed. *)
Definition atom_matches (a : atom) (c : ascii) : bool :=
  match a with
  | Lit x => Ascii.eqb (lower x) (lower c)
  | AnyChar => negb (Ascii.eqb c "010")
  end.

Fixpoint matches_here (atoms : list atom) (s : string) : bool :=
  match atoms, s with
  | [], _ => true
  | _ :: _, EmptyString => false
  | a :: atoms', String c s' => atom_matches a c && matches_here atoms' s'
  end.

(** An unanchored pattern matches when it matches at some position. *)
Fixpoint search (atoms : list atom) (s : string) : bool :=
  matches_here atoms s ||
  match s with
  | EmptyString => false
  | String _ s' => search atoms s'
  end.

End Regex.

(** ** The methods of [Queries] *)

Module Queries.

Local Open Scope async_scope.

Definition getAllSouvenirs (db : Db) : list Souvenir.t :=
  Mongo.find (fun _ => true) (souvenirs db).

Definition getCheapSouvenirs (price : Q) (db : Db) : list Souvenir.t :=
  Mongo.find (fun s => Qle_bool (Souvenir.price s) price) (souvenirs db).

Definition getTopRatingSouvenirs (n : Z) (db : Db) : list Souvenir.t :=
  Mongo.limit n (RatingSort.sort (Mongo.find (fun _ => true) (souvenirs db))).

(** The projection [{ _id: 0, name: 1, image: 1, price: 1 }]. *)
Record NameImagePrice : Type := mkNameImagePrice {
  p_name : string;
  p_image : string;
  p_price : Q
}.

Definition getSouvenirsByTag (tag : string) (db : Db) : list NameImagePrice :=
  map (fun s => mkNameImagePrice (Souvenir.name s) (Souvenir.image s)
                                 (Souvenir.price s))
      (Mongo.find (fun s => existsb (String.eqb tag) (Souvenir.tags s))
                  (souvenirs db)).

Definition getSouvenrisCount (country : string) (rating price : Q) (db : Db)
  : nat :=
  List.length
    (Mongo.find (fun s => String.eqb (Souvenir.country s) country
                          && Qle_bool rating (Souvenir.rating s)
                          && Qle_bool (Souvenir.price s) price)
                (souvenirs db)).

(** [None] only where [substring] is outside the modelled patterns. *)
Definition searchSouvenirs (substring : string) (db : Db)
  : option (list Souvenir.t) :=
  match Regex.compile substring with
  | None => None
  | Some re =>
      Some (Mongo.find (fun s => Regex.search re (Souvenir.name s))
                       (souvenirs db))
  end.

(** The path ['reviews.0.date'] is the [date] of the element at index [0]
    of [reviews]; a document without that element has no value there and
    does not satisfy [$gte]. *)
Definition first_review_since (date : Date) (s : Souvenir.t) : bool :=
  match nth_error (Souvenir.reviews s) 0 with
  | Some r => (date <=? Review.date r)%Z
  | None => false
  end.

Definition getDisscusedSouvenirs (date : Date) (db : Db) : list Souvenir.t :=
  Mongo.find (first_review_since date) (souvenirs db).

Definition out_of_stock (s : Souvenir.t) : bool :=
  Qeq_bool (Souvenir.amount s) 0.

Definition deleteOutOfStockSouvenirs : Async Mongo.WriteResult :=
  fun db =>
    let (r, coll) := Mongo.deleteMany out_of_stock (souvenirs db) in
    (Ok r, mkDb coll (carts db)).

(** The store calls of [addReview], as actions on the database. *)
Definition has_id (souvenirId : ObjectId) (s : Souvenir.t) : bool :=
  N.eqb (Souvenir._id s) souvenirId.

Definition Souvenir_findOneAndUpdate (filter : Souvenir.t -> bool)
    (update : Souvenir.t -> Souvenir.t) : Async (option Souvenir.t) :=
  fun db =>
    let (r, coll) := Mongo.findOneAndUpdate filter update (souvenirs db) in
    (Ok r, mkDb coll (carts db)).

(** [{ $push: { reviews: r } }]. *)
Definition push_review (r : Review.t) (s : Souvenir.t) : Souvenir.t :=
  Souvenir.with_reviews (Souvenir.reviews s ++ [r]) s.

(** [{ $set: { rating: q } }]. *)
Definition set_rating (q : Q) (s : Souvenir.t) : Souvenir.t :=
  Souvenir.with_rating q s.

(** The pipeline of [addReview]: [$match], [$unwind], [$replaceRoot],
    [$group] with [$avg]. *)
Definition rating_pipeline (souvenirId : ObjectId) (coll : list Souvenir.t)
  : list Q :=
  Mongo.group_null Mongo.avg_acc Review.rating
    (Mongo.replaceRoot
       (Mongo.unwind Souvenir.reviews
          (Mongo.match_ (has_id souvenirId) coll))).

Definition Souvenir_aggregate_rating (souvenirId : ObjectId)
  : Async (list Q) :=
  fun db => (Ok (rating_pipeline souvenirId (souvenirs db)), db).

(** [result[0].field]: reading a property of [undefined] throws.  A throw
    in the body of an [async] method rejects its promise, so the read is
    sequenced like the awaited calls around it. *)
Definition first_result {A} (result : list A) : Async A :=
  match nth_error result 0 with
  | Some r => resolve r
  | None => reject TypeError
  end.

(** The argument [{ login, rating, text }]. *)
Record ReviewInput : Type := mkReviewInput {
  in_login : string;
  in_rating : Q;
  in_text : string
}.

(** [id] is the value [uuidv4()] returned and [date] the value of
    [new Date()] in this call.  The pushed object is
    [{ login, id, text, rating, date }]: it has no [isApproved]. *)
Definition addReview (souvenirId : ObjectId) (review : ReviewInput)
    (id : string) (date : Date) : Async (option Souvenir.t) :=
  _ <- await Souvenir_findOneAndUpdate (has_id souvenirId)
         (push_review (Review.mk id (in_login review) date (in_text review)
                                 (in_rating review) None)) ;;
  aggregateResult <- await Souvenir_aggregate_rating souvenirId ;;
  rating <- await first_result aggregateResult ;;
  Souvenir_findOneAndUpdate (has_id souvenirId) (set_rating rating).

(** The pipeline of [getCartSum]: [$match], [$unwind], [$replaceRoot],
    [$lookup], [$unwind], [$group] with [$sum] of [$multiply]. *)
Definition joins (i : CartItem.t) (s : Souvenir.t) : bool :=
  N.eqb (CartItem.souvenirId i) (Souvenir._id s).

Definition line_cost (row : CartItem.t * Souvenir.t) : Q :=
  Souvenir.price (snd row) * CartItem.amount (fst row).

Definition cost_pipeline (login : string) (db : Db) : list Q :=
  Mongo.group_null Mongo.sum_acc line_cost
    (Mongo.unwind_as
       (Mongo.lookup (souvenirs db) joins
          (Mongo.replaceRoot
             (Mongo.unwind Cart.items
                (Mongo.match_ (fun c => String.eqb (Cart.login c) login)
                              (carts db)))))).

Definition Cart_aggregate_cost (login : string) : Async (list Q) :=
  fun db => (Ok (cost_pipeline login db), db).

Definition getCartSum (login : string) : Async Q :=
  result <- await Cart_aggregate_cost login ;;
  first_result result.

End Queries.

(** ** Vocabulary of the properties *)

(** The souvenir an id resolves to. *)
Definition find_by_id (souvenirId : ObjectId) (coll : list Souvenir.t)
  : option Souvenir.t :=
  List.find (Queries.has_id souvenirId) coll.

(** The cart of a login. *)
Definition find_cart (login : string) (coll : list Cart.t) : option Cart.t :=
  List.find (fun c => String.eqb (Cart.login c) login) coll.

(** What the store guarantees of every collection ([_id] is unique) and what
    the unique index on [login] guarantees of the carts. *)
Definition unique_ids (coll : list Souvenir.t) : Prop :=
  NoDup (map Souvenir._id coll).

Definition unique_logins (coll : list Cart.t) : Prop :=
  NoDup (map Cart.login coll).

Definition total (vals : list Q) : Q := fold_right Qplus 0 vals.

(** The arithmetic mean. *)
Definition mean (vals : list Q) : Q :=
  total vals / inject_Z (Z.of_nat (List.length vals)).

Definition ratings (s : Souvenir.t) : list Q :=
  map Review.rating (Souvenir.reviews s).

(** Sorted by rating, highest first. *)
Definition rating_descending (l : list Souvenir.t) : Prop :=
  StronglySorted (fun a b => Souvenir.rating b <= Souvenir.rating a) l.

(** The review [addReview] pushes. *)
Definition pushed_review (review : Queries.ReviewInput) (id : string)
    (date : Date) : Review.t :=
  Review.mk id (Queries.in_login review) date (Queries.in_text review)
            (Queries.in_rating review) None.

(** Every field but [reviews] and [rating] is the same. *)
Definition same_but_reviews_and_rating (s s' : Souvenir.t) : Prop :=
  Souvenir._id s' = Souvenir._id s /\
  Souvenir.name s' = Souvenir.name s /\
  Souvenir.tags s' = Souvenir.tags s /\
  Souvenir.image s' = Souvenir.image s /\
  Souvenir.price s' = Souvenir.price s /\
  Souvenir.amount s' = Souvenir.amount s /\
  Souvenir.country s' = Souvenir.country s /\
  Souvenir.isRecent s' = Souvenir.isRecent s.

(** How one document of the catalog may differ after a review was added to
    the souvenir [souvenirId]. *)
Definition review_added (souvenirId : ObjectId) (s s' : Souvenir.t) : Prop :=
  if Queries.has_id souvenirId s
  then same_but_reviews_and_rating s s' /\
       exists r, Souvenir.reviews s' = Souvenir.reviews s ++ [r]
  else s' = s.

(** The price of a cart line: that of the souvenir times the amount, and
    nothing when the souvenir is gone. *)
Definition item_cost (catalog : list Souvenir.t) (i : CartItem.t) : Q :=
  match find_by_id (CartItem.souvenirId i) catalog with
  | Some s => Souvenir.price s * CartItem.amount i
  | None => 0
  end.

Definition cart_total (catalog : list Souvenir.t) (c : Cart.t) : Q :=
  total (map (item_cost catalog) (Cart.items c)).

(** [sub] occurs in [s] as it stands, letter case apart. *)
Fixpoint prefix_ci (sub s : string) : bool :=
  match sub, s with
  | EmptyString, _ => true
  | String _ _, EmptyString => false
  | String a sub', String b s' =>
      Ascii.eqb (Regex.lower a) (Regex.lower b) && prefix_ci sub' s'
  end.

Fixpoint contains_ci (sub s : string) : bool :=
  prefix_ci sub s ||
  match s with
  | EmptyString => false
  | String _ s' => contains_ci sub s'
  end.

(** The rows that reach the [$group] stage of [getCartSum]: each item of the
    cart beside each souvenir it joins. *)
Definition joined_rows (catalog : list Souvenir.t) (items : list CartItem.t)
  : list (CartItem.t * Souvenir.t) :=
  Mongo.unwind_as (Mongo.lookup catalog Queries.joins items).

(** A string without metacharacters, and the pattern it compiles to. *)
Fixpoint plain (s : string) : bool :=
  match s with
  | EmptyString => true
  | String c s' => negb (Regex.is_meta c) && plain s'
  end.

Fixpoint literal_atoms (s : string) : list Regex.atom :=
  match s with
  | EmptyString => []
  | String c s' => Regex.Lit c :: literal_atoms s'
  end.

(** What [getSouvenirsByTag] keeps of a souvenir. *)
Definition name_image_price (s : Souvenir.t) : Queries.NameImagePrice :=
  Queries.mkNameImagePrice (Souvenir.name s) (Souvenir.image s)
                           (Souvenir.price s).

(** What [getSouvenrisCount] counts. *)
Definition counted (country : string) (rating price : Q) (s : Souvenir.t)
  : Prop :=
  Souvenir.country s = country /\
  rating <= Souvenir.rating s /\
  Souvenir.price s <= price.

(** A string with its capital letters put in lower case. *)
Fixpoint lower_string (s : string) : string :=
  match s with
  | EmptyString => EmptyString
  | String c s' => String (Regex.lower c) (lower_string s')
  end.

Definition lower_atom (a : Regex.atom) : Regex.atom :=
  match a with
  | Regex.Lit c => Regex.Lit (Regex.lower c)
  | Regex.AnyChar => Regex.AnyChar
  end.

(** The date of the first review, if there is one. *)
Definition first_review_date (s : Souvenir.t) : option Date :=
  match Souvenir.reviews s with
  | [] => None
  | r :: _ => Some (Review.date r)
  end.

(** Characters and strings of the ASCII range. *)
Definition is_ascii (c : ascii) : bool := (nat_of_ascii c <? 128)%nat.

Fixpoint ascii_only (s : string) : bool :=
  match s with
  | EmptyString => true
  | String c s' => is_ascii c && ascii_only s'
  end.

(** The names the constructor is given: [_Souvenir] is bound to the
    collection named [souvenirsCollection], which is the catalog, and [_Cart]
    to the one named [cartsCollection]. *)
Record Collections : Type := mkCollections {
  souvenirsCollection : string;
  cartsCollection : string
}.

(** [getCartSum] under given names.  Its [$lookup] stage reads the collection
    named ['souvenirs'], whatever [souvenirsCollection] is.
    [Queries.getCartSum] joins the catalog, so it is the method where
    [souvenirsCollection] is ['souvenirs']; under any other name the stage
    reads a collection the database of the model does not hold, and the
    model says nothing ([None]). *)
Definition getCartSum_under (names : Collections) (login : string)
  : option (Async Q) :=
  if String.eqb (souvenirsCollection names) "souvenirs"
  then Some (Queries.getCartSum login)
  else None.

(** A small database for the examples: three souvenirs, three carts. *)
Module Sample.
Local Open Scope string_scope.

Definition review (date : Date) (rating : Q) : Review.t :=
  Review.mk "5c1f" "guest" date "fine" rating (Some true).

Definition magnet : Souvenir.t :=
  Souvenir.mk 1%N "abc" ["small"] [review 5%Z 4] "magnet.png" 5 0 "FR" 4 false.
Definition mug : Souvenir.t :=
  Souvenir.mk 2%N "Mug" [] [] "mug.png" 3 2 "IT" 1 true.
Definition plate : Souvenir.t :=
  Souvenir.mk 3%N "x.y" [] [review 1%Z 2; review 9%Z 3] "plate.png" 7 0 "FR"
              (5 # 2) false.

Definition db : Db :=
  mkDb [magnet; mug; plate]
       [Cart.mk "al" [CartItem.mk 1%N 2; CartItem.mk 9%N 1];
        Cart.mk "bo" [CartItem.mk 9%N 1];
        Cart.mk "ce" []].

Definition input : Queries.ReviewInput := Queries.mkReviewInput "me" 5 "nice".
End Sample.

(** * Properties *)

(** ** Lists with a unique key *)

Section UniqueKey.
Context {D K : Type} (key : D -> K) (eqb : K -> K -> bool).
Hypothesis eqb_eq : forall a b, eqb a b = true <-> a = b.

Lemma find_split (f : D -> bool) (l : list D) (d : D) :
  find f l = Some d ->
  exists l1 l2, l = l1 ++ d :: l2 /\ f d = true /\
                Forall (fun x => f x = false) l1.
Proof.
  induction l as [| x l IH]; simpl; [discriminate |].
  destruct (f x) eqn:Hx.
  - intros [= <-]. exists [], l. auto.
  - intros H. destruct (IH H) as (l1 & l2 & -> & Hd & Hl1).
    exists (x :: l1), l2. auto.
Qed.

Lemma find_none_filter (f : D -> bool) (l : list D) :
  find f l = None -> filter f l = [].
Proof.
  induction l as [| x l IH]; simpl; [reflexivity |].
  destruct (f x); [discriminate | exact IH].
Qed.

Lemma filter_all_false (f : D -> bool) (l : list D) :
  Forall (fun x => f x = false) l -> filter f l = [].
Proof.
  induction 1 as [| x l Hx _ IH]; simpl; [reflexivity |].
  rewrite Hx. exact IH.
Qed.

(** With unique keys, the first document of key [k] is the only one. *)
Lemma unique_key_split (k : K) (l : list D) (d : D) :
  NoDup (map key l) ->
  find (fun x => eqb (key x) k) l = Some d ->
  exists l1 l2, l = l1 ++ d :: l2 /\ key d = k /\
                Forall (fun x => eqb (key x) k = false) l1 /\
                Forall (fun x => eqb (key x) k = false) l2.
Proof.
  intros Hnd Hf.
  destruct (find_split _ _ _ Hf) as (l1 & l2 & -> & Hd & Hl1).
  apply eqb_eq in Hd.
  exists l1, l2. repeat split; auto.
  rewrite map_app in Hnd. simpl in Hnd.
  apply NoDup_remove_2 in Hnd.
  apply Forall_forall. intros x Hx.
  destruct (eqb (key x) k) eqn:E; [| reflexivity].
  apply eqb_eq in E. exfalso. apply Hnd.
  apply in_or_app. right. rewrite Hd, <- E. apply in_map, Hx.
Qed.

Lemma filter_unique_key (k : K) (l : list D) (d : D) :
  NoDup (map key l) ->
  find (fun x => eqb (key x) k) l = Some d ->
  filter (fun x => eqb (key x) k) l = [d].
Proof.
  intros Hnd Hf.
  destruct (unique_key_split _ _ _ Hnd Hf) as (l1 & l2 & -> & Hd & H1 & H2).
  rewrite filter_app. simpl.
  rewrite (filter_all_false _ _ H1), (filter_all_false _ _ H2).
  replace (eqb (key d) k) with true; [reflexivity |].
  symmetry. apply eqb_eq, Hd.
Qed.
End UniqueKey.

(** ** The store operations *)

Lemma findOneAndUpdate_none {D} (f : D -> bool) (u : D -> D) (l : list D) :
  find f l = None -> Mongo.findOneAndUpdate f u l = (None, l).
Proof.
  induction l as [| x l IH]; simpl; [reflexivity |].
  destruct (f x); [discriminate |].
  intros H. rewrite (IH H). reflexivity.
Qed.

Lemma findOneAndUpdate_at {D} (f : D -> bool) (u : D -> D)
    (l1 l2 : list D) (d : D) :
  Forall (fun x => f x = false) l1 -> f d = true ->
  Mongo.findOneAndUpdate f u (l1 ++ d :: l2) = (Some d, l1 ++ u d :: l2).
Proof.
  intros H1 Hd. induction H1 as [| x l1 Hx _ IH]; simpl.
  - rewrite Hd. reflexivity.
  - rewrite Hx, IH. reflexivity.
Qed.

Lemma match_at {D} (f : D -> bool) (l1 l2 : list D) (d : D) :
  Forall (fun x => f x = false) l1 -> Forall (fun x => f x = false) l2 ->
  f d = true ->
  Mongo.match_ f (l1 ++ d :: l2) = [d].
Proof.
  intros H1 H2 Hd. unfold Mongo.match_.
  rewrite filter_app. simpl.
  rewrite (filter_all_false _ _ H1), (filter_all_false _ _ H2), Hd.
  reflexivity.
Qed.

Lemma unwind_replaceRoot_one {D E} (field : D -> list E) (d : D) :
  Mongo.replaceRoot (Mongo.unwind field [d]) = field d.
Proof.
  unfold Mongo.replaceRoot, Mongo.unwind. simpl.
  rewrite app_nil_r, map_map. simpl. apply map_id.
Qed.

Lemma group_null_inhabited {D} (acc : list Q -> Q) (expr : D -> Q)
    (docs : list D) :
  docs <> [] -> Mongo.group_null acc expr docs = [acc (map expr docs)].
Proof.
  destruct docs; [congruence | reflexivity].
Qed.

(** ** Sums and means *)

Lemma fold_left_Qplus (vals : list Q) (a : Q) :
  fold_left Qplus vals a == a + total vals.
Proof.
  revert a. induction vals as [| x vals IH]; intros a; simpl.
  - ring.
  - rewrite IH. ring.
Qed.

Lemma sum_acc_total (vals : list Q) : Mongo.sum_acc vals == total vals.
Proof.
  unfold Mongo.sum_acc. rewrite fold_left_Qplus. ring.
Qed.

Lemma avg_acc_mean (vals : list Q) : Mongo.avg_acc vals == mean vals.
Proof.
  unfold Mongo.avg_acc, mean. rewrite sum_acc_total. reflexivity.
Qed.

Lemma total_app (l1 l2 : list Q) : total (l1 ++ l2) == total l1 + total l2.
Proof.
  induction l1 as [| x l1 IH]; simpl.
  - ring.
  - rewrite IH. ring.
Qed.

(** ** [addReview] on a souvenir of the catalog *)

Lemma has_id_eq (souvenirId : ObjectId) (s : Souvenir.t) :
  Queries.has_id souvenirId s = true <-> Souvenir._id s = souvenirId.
Proof. unfold Queries.has_id. apply N.eqb_eq. Qed.

(** What the call does, step by step, when the id resolves: the catalog is
    [l1 ++ s :: l2] with [s] the only document of that id; the call resolves
    to [s] with the review pushed (the document the last update found) and
    leaves [s] with the review pushed and the rating set. *)
Lemma addReview_existing (db : Db) (souvenirId : ObjectId)
    (review : Queries.ReviewInput) (id : string) (date : Date)
    (s : Souvenir.t) :
  unique_ids (souvenirs db) ->
  find_by_id souvenirId (souvenirs db) = Some s ->
  exists l1 l2,
    let s1 := Queries.push_review (pushed_review review id date) s in
    let s2 := Queries.set_rating (Mongo.avg_acc (ratings s1)) s1 in
    souvenirs db = l1 ++ s :: l2 /\
    Forall (fun x => Queries.has_id souvenirId x = false) l1 /\
    Forall (fun x => Queries.has_id souvenirId x = false) l2 /\
    Queries.has_id souvenirId s = true /\
    Queries.addReview souvenirId review id date db
    = (Ok (Some s1), mkDb (l1 ++ s2 :: l2) (carts db)).
Proof.
  intros Hu Hf.
  destruct (unique_key_split Souvenir._id N.eqb N.eqb_eq _ _ _ Hu Hf)
    as (l1 & l2 & Hl & Hid & H1 & H2).
  change (Forall (fun x => Queries.has_id souvenirId x = false) l1) in H1.
  change (Forall (fun x => Queries.has_id souvenirId x = false) l2) in H2.
  exists l1, l2. cbv zeta.
  assert (Hs : Queries.has_id souvenirId s = true) by (apply has_id_eq, Hid).
  repeat split; auto.
  unfold Queries.addReview, await, Queries.Souvenir_findOneAndUpdate,
    Queries.Souvenir_aggregate_rating, Queries.rating_pipeline.
  rewrite Hl.
  rewrite (findOneAndUpdate_at _ _ _ _ _ H1 Hs). simpl souvenirs.
  set (s1 := Queries.push_review _ s).
  assert (Hs1 : Queries.has_id souvenirId s1 = true) by exact Hs.
  rewrite (match_at _ _ _ _ H1 H2 Hs1), unwind_replaceRoot_one.
  rewrite group_null_inhabited
    by (unfold s1; simpl; destruct (Souvenir.reviews s); discriminate).
  unfold Queries.first_result, resolve. simpl.
  rewrite (findOneAndUpdate_at _ _ _ _ _ H1 Hs1).
  reflexivity.
Qed.

Lemma find_at {D} (f : D -> bool) (l1 l2 : list D) (d : D) :
  Forall (fun x => f x = false) l1 -> f d = true ->
  find f (l1 ++ d :: l2) = Some d.
Proof.
  intros H1 Hd. induction H1 as [| x l1 Hx _ IH]; simpl.
  - rewrite Hd. reflexivity.
  - rewrite Hx. exact IH.
Qed.

Lemma review_added_others (souvenirId : ObjectId) (l : list Souvenir.t) :
  Forall (fun x => Queries.has_id souvenirId x = false) l ->
  Forall2 (review_added souvenirId) l l.
Proof.
  induction 1 as [| x l Hx _ IH]; constructor; [| exact IH].
  unfold review_added. rewrite Hx. reflexivity.
Qed.

Lemma sample_unique_ids : unique_ids (souvenirs Sample.db).
Proof.
  unfold unique_ids. simpl.
  repeat constructor; simpl; intuition discriminate.
Qed.

(** C1. For a souvenir of the catalog, once [addReview] has completed the
    stored [rating] of that souvenir is the arithmetic mean of the ratings
    of all the reviews it then has. *)
Theorem addReview_rating_is_mean (db : Db) (souvenirId : ObjectId)
    (review : Queries.ReviewInput) (id : string) (date : Date)
    (s : Souvenir.t) :
  unique_ids (souvenirs db) ->
  find_by_id souvenirId (souvenirs db) = Some s ->
  exists before db' s',
    Queries.addReview souvenirId review id date db = (Ok before, db') /\
    find_by_id souvenirId (souvenirs db') = Some s' /\
    Souvenir.rating s' == mean (ratings s').
Proof.
  intros Hu Hf.
  destruct (addReview_existing db souvenirId review id date s Hu Hf)
    as (l1 & l2 & _ & H1 & _ & Hs & Hrun).
  cbv zeta in Hrun.
  eexists _, _, _. split; [exact Hrun |]. split.
  - simpl souvenirs. unfold find_by_id. apply find_at; [exact H1 | exact Hs].
  - simpl Souvenir.rating. apply avg_acc_mean.
Qed.

Lemma addReview_rating_is_mean_witness :
  unique_ids (souvenirs Sample.db) /\
  find_by_id 3%N (souvenirs Sample.db) = Some Sample.plate /\
  exists before db' s',
    Queries.addReview 3%N Sample.input "9b2e" 100%Z Sample.db
    = (Ok before, db') /\
    find_by_id 3%N (souvenirs db') = Some s' /\
    Souvenir.rating s' == mean (ratings s').
Proof.
  split; [exact sample_unique_ids |].
  split; [reflexivity |].
  apply (addReview_rating_is_mean Sample.db 3%N Sample.input "9b2e" 100%Z
           Sample.plate sample_unique_ids).
  reflexivity.
Defined.

(** C10. For a souvenir of the catalog, [addReview] leaves the carts as they
    were and the catalog document by document as it was, except that the
    target souvenir has one review more at the end of [reviews], its earlier
    reviews unchanged and in order, and possibly another [rating]. *)
Theorem addReview_changes_only_reviews_and_rating (db : Db)
    (souvenirId : ObjectId) (review : Queries.ReviewInput) (id : string)
    (date : Date) (s : Souvenir.t) :
  unique_ids (souvenirs db) ->
  find_by_id souvenirId (souvenirs db) = Some s ->
  exists before db',
    Queries.addReview souvenirId review id date db = (Ok before, db') /\
    carts db' = carts db /\
    Forall2 (review_added souvenirId) (souvenirs db) (souvenirs db').
Proof.
  intros Hu Hf.
  destruct (addReview_existing db souvenirId review id date s Hu Hf)
    as (l1 & l2 & Hl & H1 & H2 & Hs & Hrun).
  cbv zeta in Hrun.
  eexists _, _. split; [exact Hrun |]. split; [reflexivity |].
  rewrite Hl. simpl souvenirs.
  apply Forall2_app; [apply review_added_others, H1 |].
  constructor; [| apply review_added_others, H2].
  unfold review_added. rewrite Hs. split.
  - repeat split.
  - eexists. reflexivity.
Qed.

Lemma addReview_changes_only_reviews_and_rating_witness :
  unique_ids (souvenirs Sample.db) /\
  find_by_id 1%N (souvenirs Sample.db) = Some Sample.magnet /\
  exists before db',
    Queries.addReview 1%N Sample.input "9b2e" 100%Z Sample.db
    = (Ok before, db') /\
    carts db' = carts Sample.db /\
    Forall2 (review_added 1%N) (souvenirs Sample.db) (souvenirs db').
Proof.
  split; [exact sample_unique_ids |].
  split; [reflexivity |].
  apply (addReview_changes_only_reviews_and_rating Sample.db 1%N Sample.input
           "9b2e" 100%Z Sample.magnet sample_unique_ids).
  reflexivity.
Defined.

(** C2, at a souvenir of the sample catalog.  The call appends one review,
    with the generated id, the date of the call and the login, rating and
    text of the caller; the stored review has no [isApproved] at all, where
    the comment above the method asks for [isApproved] to be [false]. *)
Theorem addReview_pushes_review_without_isApproved :
  let db' := snd (Queries.addReview 3%N Sample.input "9b2e" 100%Z Sample.db) in
  exists s' r,
    find_by_id 3%N (souvenirs db') = Some s' /\
    Souvenir.reviews s' = Souvenir.reviews Sample.plate ++ [r] /\
    r = Review.mk "9b2e" "me" 100%Z "nice" 5 None /\
    Review.isApproved r <> Some false.
Proof.
  eexists _, _. split; [reflexivity |]. split; [reflexivity |].
  split; [reflexivity | discriminate].
Qed.

(** In general: the review appended to a souvenir of the catalog is
    [pushed_review], whose [isApproved] is absent. *)
Lemma addReview_appends_pushed_review (db : Db) (souvenirId : ObjectId)
    (review : Queries.ReviewInput) (id : string) (date : Date)
    (s : Souvenir.t) :
  unique_ids (souvenirs db) ->
  find_by_id souvenirId (souvenirs db) = Some s ->
  exists s',
    find_by_id souvenirId
      (souvenirs (snd (Queries.addReview souvenirId review id date db)))
    = Some s' /\
    Souvenir.reviews s' = Souvenir.reviews s ++ [pushed_review review id date].
Proof.
  intros Hu Hf.
  destruct (addReview_existing db souvenirId review id date s Hu Hf)
    as (l1 & l2 & _ & H1 & _ & Hs & Hrun).
  cbv zeta in Hrun. rewrite Hrun. simpl.
  eexists. split.
  - unfold find_by_id. apply find_at; [exact H1 | exact Hs].
  - reflexivity.
Qed.

(** Whatever the outcome, the call leaves the ids of the catalog as they
    were, in the same order; so the ids stay unique. *)
Lemma findOneAndUpdate_keys {D K} (key : D -> K) (f : D -> bool)
    (u : D -> D) (l : list D) :
  (forall d, key (u d) = key d) ->
  map key (snd (Mongo.findOneAndUpdate f u l)) = map key l.
Proof.
  intros Hu. induction l as [| x l IH]; simpl; [reflexivity |].
  destruct (f x); simpl.
  - rewrite Hu. reflexivity.
  - destruct (Mongo.findOneAndUpdate f u l) as [r l']. simpl in *.
    rewrite IH. reflexivity.
Qed.

Lemma addReview_keeps_ids (db : Db) (souvenirId : ObjectId)
    (review : Queries.ReviewInput) (id : string) (date : Date) :
  map Souvenir._id
      (souvenirs (snd (Queries.addReview souvenirId review id date db)))
  = map Souvenir._id (souvenirs db).
Proof.
  unfold Queries.addReview, await, Queries.Souvenir_findOneAndUpdate,
    Queries.Souvenir_aggregate_rating.
  set (push := Queries.push_review _).
  pose proof (findOneAndUpdate_keys Souvenir._id (Queries.has_id souvenirId)
                push (souvenirs db) (fun _ => eq_refl)) as H1.
  destruct (Mongo.findOneAndUpdate (Queries.has_id souvenirId) push
              (souvenirs db)) as [r1 coll1].
  simpl in H1. simpl souvenirs. simpl carts.
  unfold Queries.first_result.
  destruct (nth_error (Queries.rating_pipeline souvenirId coll1) 0)
    as [q |]; simpl; [| exact H1].
  pose proof (findOneAndUpdate_keys Souvenir._id (Queries.has_id souvenirId)
                (Queries.set_rating q) coll1 (fun _ => eq_refl)) as H2.
  destruct (Mongo.findOneAndUpdate (Queries.has_id souvenirId)
              (Queries.set_rating q) coll1) as [r2 coll2].
  simpl in *. congruence.
Qed.

Lemma addReview_keeps_unique_ids (db : Db) (souvenirId : ObjectId)
    (review : Queries.ReviewInput) (id : string) (date : Date) :
  unique_ids (souvenirs db) ->
  unique_ids (souvenirs (snd (Queries.addReview souvenirId review id date db))).
Proof.
  unfold unique_ids. rewrite addReview_keeps_ids. auto.
Qed.

(** ** [addReview] on an id that resolves to nothing *)

Lemma Db_eta (db : Db) : mkDb (souvenirs db) (carts db) = db.
Proof. destruct db. reflexivity. Qed.

(** C3, as the code has it.  When [souvenirId] resolves to no souvenir, the
    first update changes nothing, the aggregation returns no document, and
    reading [rating] of its absent first element throws a [TypeError]; the
    database is left as it was. *)
Theorem addReview_missing_souvenir_throws_TypeError (db : Db)
    (souvenirId : ObjectId) (review : Queries.ReviewInput) (id : string)
    (date : Date) :
  find_by_id souvenirId (souvenirs db) = None ->
  Queries.addReview souvenirId review id date db = (Err TypeError, db).
Proof.
  intros Hf.
  unfold Queries.addReview, await, Queries.Souvenir_findOneAndUpdate,
    Queries.Souvenir_aggregate_rating, Queries.rating_pipeline.
  rewrite (findOneAndUpdate_none _ _ _ Hf). simpl souvenirs.
  unfold Mongo.match_. rewrite (find_none_filter _ _ Hf).
  simpl. rewrite Db_eta. reflexivity.
Qed.

Lemma addReview_missing_souvenir_throws_TypeError_witness :
  find_by_id 7%N (souvenirs Sample.db) = None /\
  Queries.addReview 7%N Sample.input "9b2e" 100%Z Sample.db
  = (Err TypeError, Sample.db).
Proof.
  split; [reflexivity |].
  apply (addReview_missing_souvenir_throws_TypeError Sample.db 7%N
           Sample.input "9b2e" 100%Z).
  reflexivity.
Defined.

(** C3 as stated fails: no souvenir of the sample catalog has id [7], and
    the call does not fail with [NotFound]. *)
Lemma addReview_missing_souvenir_not_NotFound :
  find_by_id 7%N (souvenirs Sample.db) = None /\
  fst (Queries.addReview 7%N Sample.input "9b2e" 100%Z Sample.db)
  <> Err NotFound.
Proof.
  split; [reflexivity | simpl; discriminate].
Qed.

(** ** [getCartSum] *)

(** C5, as the code has it.  When no cart has the login, the aggregation
    returns no document and reading [cost] of its absent first element throws
    a [TypeError]. *)
Theorem getCartSum_missing_cart_throws_TypeError (db : Db) (login : string) :
  find_cart login (carts db) = None ->
  Queries.getCartSum login db = (Err TypeError, db).
Proof.
  intros Hf.
  unfold Queries.getCartSum, await, Queries.Cart_aggregate_cost,
    Queries.cost_pipeline, Mongo.match_.
  rewrite (find_none_filter _ _ Hf). reflexivity.
Qed.

Lemma getCartSum_missing_cart_throws_TypeError_witness :
  find_cart "zed" (carts Sample.db) = None /\
  Queries.getCartSum "zed" Sample.db = (Err TypeError, Sample.db).
Proof.
  split; [reflexivity |].
  apply (getCartSum_missing_cart_throws_TypeError Sample.db "zed").
  reflexivity.
Defined.

(** C5 as stated fails: nobody in the sample has the login ["zed"], and the
    call does not fail with [NotFound]. *)
Lemma getCartSum_missing_cart_not_NotFound :
  find_cart "zed" (carts Sample.db) = None /\
  fst (Queries.getCartSum "zed" Sample.db) <> Err NotFound.
Proof.
  split; [reflexivity | simpl; discriminate].
Qed.

(** C4, at a cart of the sample.  The cart of ["bo"] exists and its one item
    refers to a souvenir that is gone, so its total is [0]; the call throws a
    [TypeError] instead of returning it.  The same happens for ["ce"], whose
    cart has no item. *)
Theorem getCartSum_throws_when_no_item_resolves :
  exists bo ce,
    find_cart "bo" (carts Sample.db) = Some bo /\
    cart_total (souvenirs Sample.db) bo == 0 /\
    fst (Queries.getCartSum "bo" Sample.db) = Err TypeError /\
    find_cart "ce" (carts Sample.db) = Some ce /\
    cart_total (souvenirs Sample.db) ce == 0 /\
    fst (Queries.getCartSum "ce" Sample.db) = Err TypeError.
Proof.
  eexists _, _. repeat split; reflexivity.
Qed.

(** When some item of the cart does resolve, the call returns the total, an
    item whose souvenir is gone counting for nothing. *)

Lemma lookup_one (catalog : list Souvenir.t) (i : CartItem.t) :
  unique_ids catalog ->
  filter (Queries.joins i) catalog
  = match find_by_id (CartItem.souvenirId i) catalog with
    | Some s => [s]
    | None => []
    end.
Proof.
  intros Hu.
  rewrite (filter_ext (Queries.joins i)
             (Queries.has_id (CartItem.souvenirId i)))
    by (intros x; apply N.eqb_sym).
  destruct (find_by_id (CartItem.souvenirId i) catalog) eqn:Hf.
  - exact (filter_unique_key Souvenir._id N.eqb N.eqb_eq _ _ _ Hu Hf).
  - exact (find_none_filter _ _ Hf).
Qed.

Lemma joined_rows_cons (catalog : list Souvenir.t) (i : CartItem.t)
    (items : list CartItem.t) :
  joined_rows catalog (i :: items)
  = map (fun s => (i, s)) (filter (Queries.joins i) catalog)
    ++ joined_rows catalog items.
Proof. reflexivity. Qed.

Lemma joined_rows_total (catalog : list Souvenir.t)
    (items : list CartItem.t) :
  unique_ids catalog ->
  total (map Queries.line_cost (joined_rows catalog items))
  == total (map (item_cost catalog) items).
Proof.
  intros Hu. induction items as [| i items IH].
  - reflexivity.
  - rewrite joined_rows_cons, map_app, total_app, IH, (lookup_one _ _ Hu).
    simpl. unfold item_cost.
    destruct (find_by_id (CartItem.souvenirId i) catalog); simpl.
    + unfold Queries.line_cost. simpl. ring.
    + ring.
Qed.

Lemma joined_rows_inhabited (catalog : list Souvenir.t)
    (items : list CartItem.t) (i : CartItem.t) :
  In i items ->
  find_by_id (CartItem.souvenirId i) catalog <> None ->
  joined_rows catalog items <> [].
Proof.
  intros Hin Hres. induction items as [| j items IH]; [contradiction |].
  rewrite joined_rows_cons. destruct Hin as [-> | Hin].
  - destruct (filter (Queries.joins i) catalog) eqn:E; [| discriminate].
    exfalso. apply Hres.
    destruct (find_by_id (CartItem.souvenirId i) catalog) eqn:Hf;
      [| reflexivity].
    apply find_some in Hf. destruct Hf as [Hs Hid].
    assert (Hj : In t (filter (Queries.joins i) catalog)).
    { apply filter_In. split; [exact Hs |].
      unfold Queries.joins. rewrite N.eqb_sym. exact Hid. }
    rewrite E in Hj. contradiction.
  - intros H. apply app_eq_nil in H. destruct H as [_ H].
    exact (IH Hin H).
Qed.

Lemma getCartSum_total (db : Db) (login : string) (c : Cart.t)
    (i : CartItem.t) :
  unique_ids (souvenirs db) ->
  unique_logins (carts db) ->
  find_cart login (carts db) = Some c ->
  In i (Cart.items c) ->
  find_by_id (CartItem.souvenirId i) (souvenirs db) <> None ->
  exists cost,
    Queries.getCartSum login db = (Ok cost, db) /\
    cost == cart_total (souvenirs db) c.
Proof.
  intros Hu Hl Hc Hin Hres.
  unfold Queries.getCartSum, await, Queries.Cart_aggregate_cost,
    Queries.cost_pipeline, Mongo.match_.
  rewrite (filter_unique_key Cart.login String.eqb String.eqb_eq _ _ _ Hl Hc).
  rewrite unwind_replaceRoot_one.
  fold (joined_rows (souvenirs db) (Cart.items c)).
  rewrite group_null_inhabited
    by (exact (joined_rows_inhabited _ _ _ Hin Hres)).
  eexists. split; [reflexivity |].
  rewrite sum_acc_total. apply joined_rows_total, Hu.
Qed.

(** ** [getTopRatingSouvenirs] *)

Lemma RatingDesc_leb_iff (a b : Souvenir.t) :
  RatingDesc.leb a b = true <-> Souvenir.rating b <= Souvenir.rating a.
Proof. unfold RatingDesc.leb. apply Qle_bool_iff. Qed.

Lemma sort_rating_descending (l : list Souvenir.t) :
  rating_descending (RatingSort.sort l).
Proof.
  assert (Htrans : Transitive (fun a b => is_true (RatingDesc.leb a b))).
  { intros a b c Hab Hbc. unfold is_true in *.
    rewrite RatingDesc_leb_iff in *. eapply Qle_trans; eassumption. }
  pose proof (RatingSort.StronglySorted_sort l Htrans) as Hs.
  unfold rating_descending.
  induction Hs as [| a l' _ IH Ha]; constructor; [exact IH |].
  eapply Forall_impl; [| exact Ha].
  intros b Hb. apply RatingDesc_leb_iff, Hb.
Qed.

Lemma StronglySorted_app_l {A} (R : A -> A -> Prop) (l1 l2 : list A) :
  StronglySorted R (l1 ++ l2) -> StronglySorted R l1.
Proof.
  induction l1 as [| a l1 IH]; simpl; intros H; [constructor |].
  apply StronglySorted_inv in H. destruct H as [Hs Ha].
  constructor; [exact (IH Hs) |].
  apply Forall_app in Ha. apply Ha.
Qed.

Lemma limit_prefix {D} (n : Z) (docs : list D) :
  exists rest, docs = Mongo.limit n docs ++ rest.
Proof.
  unfold Mongo.limit. destruct (n =? 0)%Z.
  - exists []. symmetry. apply app_nil_r.
  - exists (skipn (Z.abs_nat n) docs). symmetry. apply firstn_skipn.
Qed.

(** X24. For [n > 0], [getTopRatingSouvenirs n] returns [min n |catalog|]
    souvenirs, sorted by rating, highest first; they are the front of a
    sorted arrangement of the whole catalog. *)
Theorem getTopRatingSouvenirs_top_n_when_positive (n : Z) (db : Db) :
  (0 < n)%Z ->
  let top := Queries.getTopRatingSouvenirs n db in
  rating_descending top /\
  (exists rest, Permutation (souvenirs db) (top ++ rest) /\
                rating_descending (top ++ rest)) /\
  List.length top = Nat.min (Z.to_nat n) (List.length (souvenirs db)).
Proof.
  intros Hn top.
  assert (Hall : Mongo.find (fun _ : Souvenir.t => true) (souvenirs db)
                 = souvenirs db).
  { unfold Mongo.find. apply forallb_filter_id, forallb_forall. reflexivity. }
  assert (Hlen : List.length (RatingSort.sort (souvenirs db))
                 = List.length (souvenirs db)).
  { symmetry. apply Permutation_length, RatingSort.Permuted_sort. }
  subst top. unfold Queries.getTopRatingSouvenirs. rewrite Hall.
  destruct (limit_prefix n (RatingSort.sort (souvenirs db))) as [rest Hrest].
  pose proof (sort_rating_descending (souvenirs db)) as Hsorted.
  split; [| split].
  - rewrite Hrest in Hsorted. exact (StronglySorted_app_l _ _ _ Hsorted).
  - exists rest. rewrite <- Hrest.
    split; [apply RatingSort.Permuted_sort | exact Hsorted].
  - unfold Mongo.limit.
    replace (n =? 0)%Z with false by (symmetry; apply Z.eqb_neq; lia).
    rewrite length_firstn, Hlen, Zabs2Nat.abs_nat_nonneg by lia.
    reflexivity.
Qed.

Lemma getTopRatingSouvenirs_top_n_when_positive_witness :
  (0 < 2)%Z /\
  let top := Queries.getTopRatingSouvenirs 2%Z Sample.db in
  rating_descending top /\
  (exists rest, Permutation (souvenirs Sample.db) (top ++ rest) /\
                rating_descending (top ++ rest)) /\
  List.length top
  = Nat.min (Z.to_nat 2) (List.length (souvenirs Sample.db)).
Proof.
  split; [lia |].
  apply (getTopRatingSouvenirs_top_n_when_positive 2%Z Sample.db). lia.
Defined.

(** C6, at [n = 0] and [n = -1] on the sample catalog.  The top [0] and the
    top [-1] of a catalog are empty; the call returns all three souvenirs
    for [0], which [limit] reads as no limit, and one souvenir for [-1],
    which [limit] reads as [1]. *)
Theorem getTopRatingSouvenirs_not_empty_for_n_le_0 :
  (0 <= 0)%Z /\
  map Souvenir.name (Queries.getTopRatingSouvenirs 0%Z Sample.db)
  = ["abc"; "x.y"; "Mug"]%string /\
  Queries.getTopRatingSouvenirs 0%Z Sample.db <> [] /\
  (-1 <= 0)%Z /\
  map Souvenir.name (Queries.getTopRatingSouvenirs (-1)%Z Sample.db)
  = ["abc"]%string /\
  Queries.getTopRatingSouvenirs (-1)%Z Sample.db <> [].
Proof.
  split; [lia |]. split; [reflexivity |]. split; [discriminate |].
  split; [lia |]. split; [reflexivity | discriminate].
Qed.

(** ** [deleteOutOfStockSouvenirs] *)

Lemma out_of_stock_iff (s : Souvenir.t) :
  Queries.out_of_stock s = true <-> Souvenir.amount s == 0.
Proof. unfold Queries.out_of_stock. apply Qeq_bool_iff. Qed.

Lemma filter_split_length {D} (f : D -> bool) (l : list D) :
  (List.length (filter f l) + List.length (filter (fun d => negb (f d)) l)
   = List.length l)%nat.
Proof.
  induction l as [| x l IH]; simpl; [reflexivity |].
  destruct (f x); simpl; lia.
Qed.

Lemma filter_kept_none {D} (f : D -> bool) (l : list D) :
  filter f (filter (fun d => negb (f d)) l) = [].
Proof.
  apply filter_all_false, Forall_forall.
  intros x Hx. apply filter_In in Hx. destruct Hx as [_ Hx].
  apply negb_true_iff, Hx.
Qed.

Lemma filter_kept_again {D} (f : D -> bool) (l : list D) :
  filter f (filter f l) = filter f l.
Proof.
  apply forallb_filter_id, forallb_forall.
  intros x Hx. apply filter_In in Hx. apply Hx.
Qed.

(** C8, as the code has it.  [deleteOutOfStockSouvenirs] succeeds; the
    souvenirs it leaves are those of the catalog whose amount is not [0], so
    the ones it deletes are those whose amount is [0]; its report has
    [ok = 1] and, as [n] and as [deletedCount], the number of souvenirs
    deleted; a second call right after succeeds too, reports [0] deleted and
    changes nothing. *)
Theorem deleteOutOfStockSouvenirs_deletes_amount_zero (db : Db) :
  exists r db',
    Queries.deleteOutOfStockSouvenirs db = (Ok r, db') /\
    (forall s, In s (souvenirs db') <->
               In s (souvenirs db) /\ ~ Souvenir.amount s == 0) /\
    carts db' = carts db /\
    Mongo.ok r = 1%Z /\
    Mongo.n r = Mongo.deletedCount r /\
    (Mongo.deletedCount r + List.length (souvenirs db')
     = List.length (souvenirs db))%nat /\
    exists r',
      Queries.deleteOutOfStockSouvenirs db' = (Ok r', db') /\
      Mongo.ok r' = 1%Z /\
      Mongo.n r' = 0%nat /\
      Mongo.deletedCount r' = 0%nat.
Proof.
  unfold Queries.deleteOutOfStockSouvenirs, Mongo.deleteMany.
  eexists _, _. split; [reflexivity |]. simpl.
  split; [| split; [reflexivity | split; [reflexivity |
                                          split; [reflexivity | split]]]].
  - intros s. rewrite filter_In, negb_true_iff, <- not_true_iff_false,
      out_of_stock_iff. reflexivity.
  - apply filter_split_length.
  - eexists. rewrite filter_kept_none, filter_kept_again.
    split; [reflexivity |]. repeat split.
Qed.

(** C8 as stated fails: the report of the call on the sample catalog, which
    deletes two souvenirs, has no property [acknowledged]; it has [ok],
    [n] and [deletedCount]. *)
Lemma deleteOutOfStockSouvenirs_report_has_no_acknowledged :
  exists r,
    fst (Queries.deleteOutOfStockSouvenirs Sample.db) = Ok r /\
    Mongo.property r "acknowledged" = None /\
    Mongo.property r "ok" = Some 1%Z /\
    Mongo.property r "n" = Some 2%Z /\
    Mongo.property r "deletedCount" = Some 2%Z.
Proof.
  eexists. split; [reflexivity |]. repeat split.
Qed.

(** ** [getDisscusedSouvenirs] *)

(** C9. [getDisscusedSouvenirs d] returns exactly the souvenirs of the
    catalog whose first review is dated [d] or later; a souvenir without
    reviews is never returned, and neither is one whose first review is
    dated before [d], whatever its later reviews. *)
Theorem getDisscusedSouvenirs_first_review (date : Date) (db : Db) :
  (forall s, In s (Queries.getDisscusedSouvenirs date db) <->
             In s (souvenirs db) /\
             exists r later, Souvenir.reviews s = r :: later /\
                             (date <= Review.date r)%Z) /\
  (forall s, Souvenir.reviews s = [] ->
             ~ In s (Queries.getDisscusedSouvenirs date db)) /\
  (forall s r later, Souvenir.reviews s = r :: later ->
                     (Review.date r < date)%Z ->
                     ~ In s (Queries.getDisscusedSouvenirs date db)).
Proof.
  assert (Hiff : forall s, Queries.first_review_since date s = true <->
                   exists r later, Souvenir.reviews s = r :: later /\
                                   (date <= Review.date r)%Z).
  { intros s. unfold Queries.first_review_since.
    destruct (Souvenir.reviews s) as [| r later]; simpl.
    - split; [discriminate | intros (r & later & H & _); discriminate].
    - rewrite Z.leb_le. split.
      + intros H. exists r, later. auto.
      + intros (r' & later' & [= <- <-] & H). exact H. }
  unfold Queries.getDisscusedSouvenirs, Mongo.find.
  split; [| split].
  - intros s. rewrite filter_In, Hiff. reflexivity.
  - intros s Hs Hin. apply filter_In in Hin. destruct Hin as [_ Hin].
    apply Hiff in Hin. destruct Hin as (r & later & H & _).
    rewrite Hs in H. discriminate.
  - intros s r later Hs Hlt Hin. apply filter_In in Hin.
    destruct Hin as [_ Hin]. apply Hiff in Hin.
    destruct Hin as (r' & later' & H & Hle).
    rewrite Hs in H. injection H as <- <-. lia.
Qed.

(** ** [searchSouvenirs] *)

Lemma compile_plain (s : string) :
  plain s = true -> Regex.compile s = Some (literal_atoms s).
Proof.
  induction s as [| c s IH]; simpl; [reflexivity |].
  intros H. apply andb_prop in H. destruct H as [Hc Hs].
  rewrite (IH Hs). apply negb_true_iff in Hc. rewrite Hc.
  destruct (Ascii.eqb c ".") eqn:E; [| reflexivity].
  apply Ascii.eqb_eq in E. subst c. discriminate.
Qed.

Lemma matches_here_literal (sub s : string) :
  Regex.matches_here (literal_atoms sub) s = prefix_ci sub s.
Proof.
  revert s. induction sub as [| a sub IH]; intros s; simpl.
  - reflexivity.
  - destruct s as [| b s]; [reflexivity |]. simpl. rewrite IH. reflexivity.
Qed.

Lemma search_literal (sub s : string) :
  Regex.search (literal_atoms sub) s = contains_ci sub s.
Proof.
  induction s as [| b s IH]; simpl.
  - rewrite matches_here_literal. reflexivity.
  - rewrite IH, matches_here_literal. reflexivity.
Qed.

(** For a substring without metacharacters the method does return the
    souvenirs whose name contains it, letter case apart. *)
Lemma searchSouvenirs_plain (substring : string) (db : Db) :
  plain substring = true ->
  Queries.searchSouvenirs substring db
  = Some (filter (fun s => contains_ci substring (Souvenir.name s))
                 (souvenirs db)).
Proof.
  intros H. unfold Queries.searchSouvenirs, Mongo.find.
  rewrite (compile_plain _ H). f_equal.
  apply filter_ext. intros s. apply search_literal.
Qed.

(** And for the empty string it returns every souvenir. *)
Lemma searchSouvenirs_empty (db : Db) :
  Queries.searchSouvenirs "" db = Some (souvenirs db).
Proof.
  unfold Queries.searchSouvenirs, Mongo.find. simpl. f_equal.
  apply forallb_filter_id, forallb_forall.
  intros s _. destruct (Souvenir.name s); reflexivity.
Qed.

(** C7, at the substring ["."].  No name of the sample catalog but ["x.y"]
    contains a dot, yet the call returns all three souvenirs: the substring
    is handed to [$regex] as a pattern, in which the dot stands for any
    character. *)
Theorem searchSouvenirs_dot_matches_any_name :
  option_map (map Souvenir.name) (Queries.searchSouvenirs "." Sample.db)
  = Some ["abc"; "Mug"; "x.y"]%string /\
  map Souvenir.name
      (filter (fun s => contains_ci "." (Souvenir.name s))
              (souvenirs Sample.db))
  = ["x.y"]%string.
Proof.
  split; reflexivity.
Qed.


(** * Further properties of the methods *)

(** ** Lists related document by document *)

Lemma Forall2_same {A} (R : A -> A -> Prop) (l : list A) :
  (forall a, R a a) -> Forall2 R l l.
Proof. intros HR. induction l; constructor; auto. Qed.

Lemma Forall2_chain {A} (R : A -> A -> Prop) (l1 l2 l3 : list A) :
  (forall a b c, R a b -> R b c -> R a c) ->
  Forall2 R l1 l2 -> Forall2 R l2 l3 -> Forall2 R l1 l3.
Proof.
  intros HR H12. revert l3.
  induction H12 as [| a b l1 l2 Hab _ IH]; intros l3 H23;
    inversion H23; subst; constructor; eauto.
Qed.

Lemma findOneAndUpdate_related {D} (R : D -> D -> Prop) (f : D -> bool)
    (u : D -> D) (l : list D) :
  (forall d, R d d) -> (forall d, R d (u d)) ->
  Forall2 R l (snd (Mongo.findOneAndUpdate f u l)).
Proof.
  intros Hrefl Hu. induction l as [| x l IH]; simpl; [constructor |].
  destruct (f x); simpl.
  - constructor; [apply Hu | apply Forall2_same, Hrefl].
  - destruct (Mongo.findOneAndUpdate f u l) as [r l']. simpl in *.
    constructor; [apply Hrefl | exact IH].
Qed.

(** A filter and a projection that look only at what [R] keeps give the same
    on two lists related by [R]. *)
Lemma map_filter_related {D B} (R : D -> D -> Prop) (f : D -> bool)
    (g : D -> B) (l l' : list D) :
  (forall x y, R x y -> f x = f y) ->
  (forall x y, R x y -> g x = g y) ->
  Forall2 R l l' ->
  map g (filter f l) = map g (filter f l').
Proof.
  intros Hf Hg H. induction H as [| x y l l' Hxy _ IH]; simpl; [reflexivity |].
  rewrite <- (Hf x y Hxy). destruct (f x); simpl; [| exact IH].
  rewrite (Hg x y Hxy), IH. reflexivity.
Qed.

Lemma same_but_reviews_and_rating_refl (s : Souvenir.t) :
  same_but_reviews_and_rating s s.
Proof. repeat split. Qed.

Lemma same_but_reviews_and_rating_trans (a b c : Souvenir.t) :
  same_but_reviews_and_rating a b -> same_but_reviews_and_rating b c ->
  same_but_reviews_and_rating a c.
Proof.
  unfold same_but_reviews_and_rating. intros H1 H2.
  destruct H1 as (A1 & A2 & A3 & A4 & A5 & A6 & A7 & A8).
  destruct H2 as (B1 & B2 & B3 & B4 & B5 & B6 & B7 & B8).
  repeat split; congruence.
Qed.

(** ** [addReview], whatever the catalog *)

(** With or without a souvenir of that id, the call leaves the carts alone
    and leaves every souvenir with the fields it had, [reviews] and [rating]
    apart. *)
Lemma addReview_fieldwise (db : Db) (souvenirId : ObjectId)
    (review : Queries.ReviewInput) (id : string) (date : Date) :
  let db' := snd (Queries.addReview souvenirId review id date db) in
  carts db' = carts db /\
  Forall2 same_but_reviews_and_rating (souvenirs db) (souvenirs db').
Proof.
  unfold Queries.addReview, await, Queries.Souvenir_findOneAndUpdate,
    Queries.Souvenir_aggregate_rating.
  set (push := Queries.push_review _).
  pose proof (findOneAndUpdate_related same_but_reviews_and_rating
                (Queries.has_id souvenirId) push (souvenirs db)
                same_but_reviews_and_rating_refl
                (fun d => same_but_reviews_and_rating_refl d)) as H1.
  destruct (Mongo.findOneAndUpdate (Queries.has_id souvenirId) push
              (souvenirs db)) as [r1 coll1].
  simpl in H1. simpl souvenirs. simpl carts.
  unfold Queries.first_result.
  destruct (nth_error (Queries.rating_pipeline souvenirId coll1) 0)
    as [q |]; simpl; [| split; [reflexivity | exact H1]].
  pose proof (findOneAndUpdate_related same_but_reviews_and_rating
                (Queries.has_id souvenirId) (Queries.set_rating q) coll1
                same_but_reviews_and_rating_refl
                (fun d => same_but_reviews_and_rating_refl d)) as H2.
  destruct (Mongo.findOneAndUpdate (Queries.has_id souvenirId)
              (Queries.set_rating q) coll1) as [r2 coll2].
  simpl in *. split; [reflexivity |].
  exact (Forall2_chain _ _ _ _ same_but_reviews_and_rating_trans H1 H2).
Qed.

(** X1. Whatever its outcome, with or without a souvenir of that id,
    [addReview] leaves the carts as they were and never adds, removes or
    reorders a souvenir, nor changes a field of one other than [reviews] and
    [rating]. *)
Theorem addReview_never_touches_other_fields (db : Db)
    (souvenirId : ObjectId) (review : Queries.ReviewInput) (id : string)
    (date : Date) :
  let db' := snd (Queries.addReview souvenirId review id date db) in
  carts db' = carts db /\
  List.length (souvenirs db') = List.length (souvenirs db) /\
  map Souvenir._id (souvenirs db') = map Souvenir._id (souvenirs db) /\
  Forall2 same_but_reviews_and_rating (souvenirs db) (souvenirs db').
Proof.
  intros db'.
  destruct (addReview_fieldwise db souvenirId review id date) as [Hc Hs].
  fold db' in Hc, Hs.
  split; [exact Hc |]. split; [| split; [| exact Hs]].
  - symmetry. exact (Forall2_length Hs).
  - subst db'. apply addReview_keeps_ids.
Qed.

(** ** [addReview] and the other methods *)

Lemma group_null_by_values {D} (acc : list Q -> Q) (expr : D -> Q)
    (docs docs' : list D) :
  map expr docs = map expr docs' ->
  Mongo.group_null acc expr docs = Mongo.group_null acc expr docs'.
Proof.
  intros H. destruct docs, docs'; try discriminate; simpl in *.
  - reflexivity.
  - rewrite H. reflexivity.
Qed.

Lemma joined_rows_costs (catalog catalog' : list Souvenir.t)
    (items : list CartItem.t) :
  Forall2 same_but_reviews_and_rating catalog catalog' ->
  map Queries.line_cost (joined_rows catalog items)
  = map Queries.line_cost (joined_rows catalog' items).
Proof.
  intros H. induction items as [| i items IH]; [reflexivity |].
  rewrite !joined_rows_cons, !map_app, IH, !map_map. f_equal.
  apply (map_filter_related same_but_reviews_and_rating); [| | exact H].
  - intros x y (Hid & _). unfold Queries.joins. rewrite Hid. reflexivity.
  - intros x y (_ & _ & _ & _ & Hp & _). unfold Queries.line_cost. simpl.
    rewrite Hp. reflexivity.
Qed.

(** X2. Adding a review changes no cart total: after [addReview], whatever
    its outcome, [getCartSum] gives for every login the outcome it gave
    before. *)
Theorem addReview_keeps_cart_sums (db : Db) (souvenirId : ObjectId)
    (review : Queries.ReviewInput) (id : string) (date : Date)
    (login : string) :
  let db' := snd (Queries.addReview souvenirId review id date db) in
  fst (Queries.getCartSum login db') = fst (Queries.getCartSum login db).
Proof.
  intros db'.
  destruct (addReview_fieldwise db souvenirId review id date) as [Hc Hs].
  fold db' in Hc, Hs.
  unfold Queries.getCartSum, await, Queries.Cart_aggregate_cost,
    Queries.cost_pipeline.
  rewrite Hc.
  set (items := Mongo.replaceRoot _).
  fold (joined_rows (souvenirs db') items).
  fold (joined_rows (souvenirs db) items).
  rewrite (group_null_by_values _ _ _ _
             (joined_rows_costs _ _ items Hs)).
  unfold Queries.first_result.
  destruct (nth_error _ 0); reflexivity.
Qed.

(** X3. Adding a review changes no listing by tag and no answer to "which
    souvenirs cost at most this": after [addReview], whatever its outcome,
    [getSouvenirsByTag] returns what it returned before and
    [getCheapSouvenirs] returns the souvenirs of the same ids, in the same
    order. *)
Theorem addReview_keeps_tag_and_price_listings (db : Db)
    (souvenirId : ObjectId) (review : Queries.ReviewInput) (id : string)
    (date : Date) (tag : string) (price : Q) :
  let db' := snd (Queries.addReview souvenirId review id date db) in
  Queries.getSouvenirsByTag tag db' = Queries.getSouvenirsByTag tag db /\
  map Souvenir._id (Queries.getCheapSouvenirs price db')
  = map Souvenir._id (Queries.getCheapSouvenirs price db).
Proof.
  intros db'.
  destruct (addReview_fieldwise db souvenirId review id date) as [_ Hs].
  fold db' in Hs.
  unfold Queries.getSouvenirsByTag, Queries.getCheapSouvenirs, Mongo.find.
  split; symmetry;
    apply (map_filter_related same_but_reviews_and_rating); try exact Hs.
  - intros x y (_ & _ & Ht & _). rewrite Ht. reflexivity.
  - intros x y (_ & Hn & _ & Hi & Hp & _). rewrite Hn, Hi, Hp. reflexivity.
  - intros x y (_ & _ & _ & _ & Hp & _). rewrite Hp. reflexivity.
  - intros x y (Hid & _). symmetry. exact Hid.
Qed.

Lemma unwind_replaceRoot {D E} (field : D -> list E) (docs : list D) :
  Mongo.replaceRoot (Mongo.unwind field docs) = flat_map field docs.
Proof.
  unfold Mongo.replaceRoot, Mongo.unwind.
  induction docs as [| d docs IH]; simpl; [reflexivity |].
  rewrite map_app, map_map, IH. simpl. rewrite map_id. reflexivity.
Qed.

(** The run of [addReview] on an id that resolves, unique or not: the first
    souvenir of that id gets the review, the average is taken, and the same
    souvenir gets the rating. *)
Lemma addReview_found (db : Db) (souvenirId : ObjectId)
    (review : Queries.ReviewInput) (id : string) (date : Date)
    (s : Souvenir.t) :
  find_by_id souvenirId (souvenirs db) = Some s ->
  exists l1 l2 q,
    souvenirs db = l1 ++ s :: l2 /\
    Forall (fun x => Queries.has_id souvenirId x = false) l1 /\
    Queries.addReview souvenirId review id date db
    = (Ok (Some (Queries.push_review (pushed_review review id date) s)),
       mkDb (l1 ++ Queries.set_rating q
                     (Queries.push_review (pushed_review review id date) s)
                  :: l2)
            (carts db)).
Proof.
  intros Hf.
  destruct (find_split _ _ _ Hf) as (l1 & l2 & Hl & Hs & H1).
  set (s1 := Queries.push_review (pushed_review review id date) s).
  assert (Hs1 : Queries.has_id souvenirId s1 = true) by exact Hs.
  assert (Hrows : Mongo.replaceRoot
                    (Mongo.unwind Souvenir.reviews
                       (Mongo.match_ (Queries.has_id souvenirId)
                                     (l1 ++ s1 :: l2))) <> []).
  { rewrite unwind_replaceRoot. unfold Mongo.match_.
    rewrite filter_app, (filter_all_false _ _ H1). simpl. rewrite Hs1.
    simpl. destruct (Souvenir.reviews s); discriminate. }
  exists l1, l2. eexists. split; [exact Hl |]. split; [exact H1 |].
  unfold Queries.addReview, await, Queries.Souvenir_findOneAndUpdate,
    Queries.Souvenir_aggregate_rating, Queries.rating_pipeline.
  rewrite Hl, (findOneAndUpdate_at _ _ _ _ _ H1 Hs). simpl souvenirs.
  fold (pushed_review review id date). fold s1.
  rewrite (group_null_inhabited _ _ _ Hrows).
  unfold Queries.first_result, resolve. simpl.
  rewrite (findOneAndUpdate_at _ _ _ _ _ H1 Hs1). reflexivity.
Qed.

Lemma addReview_unresolved (db : Db) (souvenirId : ObjectId)
    (review : Queries.ReviewInput) (id : string) (date : Date) :
  find_by_id souvenirId (souvenirs db) = None ->
  Queries.addReview souvenirId review id date db = (Err TypeError, db).
Proof.
  intros Hf.
  unfold Queries.addReview, await, Queries.Souvenir_findOneAndUpdate,
    Queries.Souvenir_aggregate_rating, Queries.rating_pipeline.
  rewrite (findOneAndUpdate_none _ _ _ Hf). simpl souvenirs.
  unfold Mongo.match_. rewrite (find_none_filter _ _ Hf).
  simpl. rewrite Db_eta. reflexivity.
Qed.

(** X4. [addReview] throws exactly when the id resolves to no souvenir, and
    what it throws is then a [TypeError]; in every other case it resolves. *)
Theorem addReview_throws_iff_unresolved (db : Db) (souvenirId : ObjectId)
    (review : Queries.ReviewInput) (id : string) (date : Date) :
  (fst (Queries.addReview souvenirId review id date db) = Err TypeError <->
   find_by_id souvenirId (souvenirs db) = None) /\
  (forall e, fst (Queries.addReview souvenirId review id date db) = Err e ->
             e = TypeError).
Proof.
  destruct (find_by_id souvenirId (souvenirs db)) as [s |] eqn:Hf.
  - destruct (addReview_found db souvenirId review id date s Hf)
      as (l1 & l2 & q & _ & _ & Hrun).
    rewrite Hrun. simpl. split; [split |]; discriminate.
  - rewrite (addReview_unresolved db souvenirId review id date Hf). simpl.
    split; [split; reflexivity |]. intros e [= <-]. reflexivity.
Qed.

(** X5. When the id resolves, [addReview] resolves to the souvenir as the
    last update found it: with the new review at the end of [reviews], and
    with the rating it had before the call, not the recomputed one. *)
Theorem addReview_resolves_to_souvenir_before_rating (db : Db)
    (souvenirId : ObjectId) (review : Queries.ReviewInput) (id : string)
    (date : Date) (s : Souvenir.t) :
  find_by_id souvenirId (souvenirs db) = Some s ->
  exists before,
    fst (Queries.addReview souvenirId review id date db) = Ok (Some before) /\
    Souvenir.reviews before
    = Souvenir.reviews s ++ [pushed_review review id date] /\
    Souvenir.rating before = Souvenir.rating s /\
    same_but_reviews_and_rating s before.
Proof.
  intros Hf.
  destruct (addReview_found db souvenirId review id date s Hf)
    as (l1 & l2 & q & _ & _ & Hrun).
  rewrite Hrun. simpl. eexists. split; [reflexivity |].
  repeat split.
Qed.

Lemma addReview_resolves_to_souvenir_before_rating_witness :
  find_by_id 3%N (souvenirs Sample.db) = Some Sample.plate /\
  exists before,
    fst (Queries.addReview 3%N Sample.input "9b2e" 100%Z Sample.db)
    = Ok (Some before) /\
    Souvenir.reviews before
    = Souvenir.reviews Sample.plate
      ++ [pushed_review Sample.input "9b2e" 100%Z] /\
    Souvenir.rating before = Souvenir.rating Sample.plate /\
    same_but_reviews_and_rating Sample.plate before.
Proof.
  split; [reflexivity |].
  apply (addReview_resolves_to_souvenir_before_rating Sample.db 3%N
           Sample.input "9b2e" 100%Z Sample.plate).
  reflexivity.
Defined.

(** X6. Two calls of [addReview] on a souvenir of the catalog, one after the
    other: both resolve, the two reviews stand at the end of [reviews] in the
    order of the calls, after the reviews that were there, and the stored
    rating is the mean over all of them. *)
Theorem addReview_twice_appends_in_call_order (db : Db)
    (souvenirId : ObjectId) (review1 review2 : Queries.ReviewInput)
    (id1 id2 : string) (date1 date2 : Date) (s : Souvenir.t) :
  unique_ids (souvenirs db) ->
  find_by_id souvenirId (souvenirs db) = Some s ->
  exists before1 db1 before2 db2 s2,
    Queries.addReview souvenirId review1 id1 date1 db = (Ok before1, db1) /\
    Queries.addReview souvenirId review2 id2 date2 db1 = (Ok before2, db2) /\
    find_by_id souvenirId (souvenirs db2) = Some s2 /\
    Souvenir.reviews s2
    = Souvenir.reviews s
      ++ [pushed_review review1 id1 date1; pushed_review review2 id2 date2] /\
    Souvenir.rating s2 == mean (ratings s2).
Proof.
  intros Hu Hf.
  destruct (addReview_existing db souvenirId review1 id1 date1 s Hu Hf)
    as (l1 & l2 & _ & H1 & _ & Hs & Hrun1).
  cbv zeta in Hrun1.
  set (s1 := Queries.set_rating _ _) in Hrun1.
  set (db1 := mkDb (l1 ++ s1 :: l2) (carts db)) in Hrun1.
  assert (Hu1 : unique_ids (souvenirs db1)).
  { pose proof (addReview_keeps_unique_ids db souvenirId review1 id1 date1 Hu)
      as H. rewrite Hrun1 in H. exact H. }
  assert (Hf1 : find_by_id souvenirId (souvenirs db1) = Some s1).
  { unfold find_by_id. simpl. apply find_at; [exact H1 | exact Hs]. }
  destruct (addReview_existing db1 souvenirId review2 id2 date2 s1 Hu1 Hf1)
    as (k1 & k2 & _ & K1 & _ & Ks & Hrun2).
  cbv zeta in Hrun2.
  eexists _, _, _, _, _.
  split; [exact Hrun1 |]. split; [exact Hrun2 |]. split; [| split].
  - unfold find_by_id. simpl. apply find_at; [exact K1 | exact Ks].
  - simpl. rewrite <- app_assoc. reflexivity.
  - simpl Souvenir.rating. apply avg_acc_mean.
Qed.

Lemma addReview_twice_appends_in_call_order_witness :
  unique_ids (souvenirs Sample.db) /\
  find_by_id 2%N (souvenirs Sample.db) = Some Sample.mug /\
  exists before1 db1 before2 db2 s2,
    Queries.addReview 2%N Sample.input "9b2e" 100%Z Sample.db
    = (Ok before1, db1) /\
    Queries.addReview 2%N Sample.input "77c0" 200%Z db1 = (Ok before2, db2) /\
    find_by_id 2%N (souvenirs db2) = Some s2 /\
    Souvenir.reviews s2
    = Souvenir.reviews Sample.mug
      ++ [pushed_review Sample.input "9b2e" 100%Z;
          pushed_review Sample.input "77c0" 200%Z] /\
    Souvenir.rating s2 == mean (ratings s2).
Proof.
  split; [exact sample_unique_ids |].
  split; [reflexivity |].
  apply (addReview_twice_appends_in_call_order Sample.db 2%N Sample.input
           Sample.input "9b2e" "77c0" 100%Z 200%Z Sample.mug
           sample_unique_ids).
  reflexivity.
Defined.

(** X7. [addReview] and [getDisscusedSouvenirs].  After a review dated [date]
    was added to a souvenir of the catalog, that souvenir is among the
    souvenirs discussed since [d] exactly when its first review is dated [d]
    or later: the first review it already had, whose date the call does not
    change, or the new review when it had none. *)
Theorem addReview_then_getDisscusedSouvenirs (db : Db)
    (souvenirId : ObjectId) (review : Queries.ReviewInput) (id : string)
    (date d : Date) (s : Souvenir.t) :
  unique_ids (souvenirs db) ->
  find_by_id souvenirId (souvenirs db) = Some s ->
  let db' := snd (Queries.addReview souvenirId review id date db) in
  (exists s', In s' (Queries.getDisscusedSouvenirs d db') /\
              Souvenir._id s' = souvenirId) <->
  (d <= match first_review_date s with
        | Some d0 => d0
        | None => date
        end)%Z.
Proof.
  intros Hu Hf db'.
  destruct (addReview_existing db souvenirId review id date s Hu Hf)
    as (l1 & l2 & _ & H1 & H2 & Hs & Hrun).
  cbv zeta in Hrun. subst db'. rewrite Hrun. simpl snd.
  set (s1 := Queries.set_rating _ _).
  assert (Hfirst : Queries.first_review_since d s1 = true <->
                   (d <= match first_review_date s with
                         | Some d0 => d0
                         | None => date
                         end)%Z).
  { unfold Queries.first_review_since, first_review_date, s1. simpl.
    destruct (Souvenir.reviews s); simpl; apply Z.leb_le. }
  unfold Queries.getDisscusedSouvenirs, Mongo.find. simpl souvenirs.
  rewrite <- Hfirst. split.
  - intros (s' & Hin & Hid). apply filter_In in Hin.
    destruct Hin as [Hin Hs'].
    apply has_id_eq in Hid.
    apply in_app_or in Hin. destruct Hin as [Hin | [<- | Hin]].
    + rewrite Forall_forall in H1. rewrite (H1 _ Hin) in Hid. discriminate.
    + exact Hs'.
    + rewrite Forall_forall in H2. rewrite (H2 _ Hin) in Hid. discriminate.
  - intros Hs1. exists s1. split.
    + apply filter_In. split; [| exact Hs1].
      apply in_or_app. right. left. reflexivity.
    + apply has_id_eq. exact Hs.
Qed.

Lemma addReview_then_getDisscusedSouvenirs_witness :
  unique_ids (souvenirs Sample.db) /\
  find_by_id 2%N (souvenirs Sample.db) = Some Sample.mug /\
  let db' := snd (Queries.addReview 2%N Sample.input "9b2e" 100%Z Sample.db) in
  (exists s', In s' (Queries.getDisscusedSouvenirs 50%Z db') /\
              Souvenir._id s' = 2%N) <->
  (50 <= match first_review_date Sample.mug with
         | Some d0 => d0
         | None => 100
         end)%Z.
Proof.
  split; [exact sample_unique_ids |].
  split; [reflexivity |].
  apply (addReview_then_getDisscusedSouvenirs Sample.db 2%N Sample.input
           "9b2e" 100%Z 50%Z Sample.mug sample_unique_ids).
  reflexivity.
Defined.

(** ** [getCartSum], whatever the carts *)

Lemma joined_rows_empty_iff (catalog : list Souvenir.t)
    (items : list CartItem.t) :
  joined_rows catalog items = [] <->
  forall i, In i items -> find_by_id (CartItem.souvenirId i) catalog = None.
Proof.
  split.
  - intros Hrows i Hin.
    destruct (find_by_id (CartItem.souvenirId i) catalog) eqn:Hf;
      [| reflexivity].
    exfalso. apply (joined_rows_inhabited catalog items i Hin); [| exact Hrows].
    rewrite Hf. discriminate.
  - intros Hnone. induction items as [| i items IH]; [reflexivity |].
    rewrite joined_rows_cons, IH by (intros j Hj; apply Hnone; right; exact Hj).
    rewrite (filter_ext (Queries.joins i)
               (Queries.has_id (CartItem.souvenirId i)))
      by (intros x; apply N.eqb_sym).
    unfold find_by_id in Hnone.
    rewrite (find_none_filter _ _ (Hnone i (or_introl eq_refl))).
    reflexivity.
Qed.

Lemma sample_unique_logins : unique_logins (carts Sample.db).
Proof.
  unfold unique_logins. simpl.
  repeat constructor; simpl; intuition discriminate.
Qed.

(** When [getCartSum], joining the catalog, throws. *)
Lemma getCartSum_outcome (db : Db) (login : string) :
  (fst (Queries.getCartSum login db) = Err TypeError <->
   forall c i, In c (carts db) -> Cart.login c = login ->
               In i (Cart.items c) ->
               find_by_id (CartItem.souvenirId i) (souvenirs db) = None) /\
  (forall e, fst (Queries.getCartSum login db) = Err e -> e = TypeError) /\
  snd (Queries.getCartSum login db) = db.
Proof.
  unfold Queries.getCartSum, await, Queries.Cart_aggregate_cost,
    Queries.cost_pipeline.
  rewrite unwind_replaceRoot. unfold Mongo.match_.
  set (items := flat_map Cart.items _).
  fold (joined_rows (souvenirs db) items).
  assert (Hitems : (forall i, In i items ->
                      find_by_id (CartItem.souvenirId i) (souvenirs db) = None)
                   <-> forall c i, In c (carts db) -> Cart.login c = login ->
                         In i (Cart.items c) ->
                         find_by_id (CartItem.souvenirId i) (souvenirs db)
                         = None).
  { unfold items. split.
    - intros H c i Hc Hl Hi. apply H. apply in_flat_map. exists c.
      split; [| exact Hi]. apply filter_In. split; [exact Hc |].
      apply String.eqb_eq, Hl.
    - intros H i Hi. apply in_flat_map in Hi. destruct Hi as (c & Hc & Hi).
      apply filter_In in Hc. destruct Hc as [Hc Hl].
      apply String.eqb_eq in Hl. exact (H c i Hc Hl Hi). }
  rewrite <- Hitems, <- joined_rows_empty_iff.
  destruct (joined_rows (souvenirs db) items) as [| row rows]; simpl.
  - split; [split; reflexivity |]. split; [| reflexivity].
    intros e [= <-]. reflexivity.
  - split; [split; discriminate |]. split; [discriminate | reflexivity].
Qed.

Lemma getCartSum_under_souvenirs (names : Collections) (login : string) :
  souvenirsCollection names = "souvenirs"%string ->
  getCartSum_under names login = Some (Queries.getCartSum login).
Proof.
  intros H. unfold getCartSum_under. rewrite H. reflexivity.
Qed.

(** X8. Where [souvenirsCollection] is ['souvenirs'], so that the join of
    [getCartSum] reads the catalog: [getCartSum] throws exactly when no item
    of a cart of that login refers to a souvenir of the catalog (no such
    cart, a cart without items, or items that all refer to souvenirs that
    are gone); what it throws is a [TypeError]; and in no case does it
    change the database. *)
Theorem getCartSum_throws_iff_nothing_joins (names : Collections) (db : Db)
    (login : string) :
  souvenirsCollection names = "souvenirs"%string ->
  exists run,
    getCartSum_under names login = Some run /\
    (fst (run db) = Err TypeError <->
     forall c i, In c (carts db) -> Cart.login c = login ->
                 In i (Cart.items c) ->
                 find_by_id (CartItem.souvenirId i) (souvenirs db) = None) /\
    (forall e, fst (run db) = Err e -> e = TypeError) /\
    snd (run db) = db.
Proof.
  intros Hname. exists (Queries.getCartSum login).
  split; [exact (getCartSum_under_souvenirs names login Hname) |].
  exact (getCartSum_outcome db login).
Qed.

Lemma getCartSum_throws_iff_nothing_joins_witness :
  souvenirsCollection (mkCollections "souvenirs" "carts")
  = "souvenirs"%string /\
  exists run,
    getCartSum_under (mkCollections "souvenirs" "carts") "bo" = Some run /\
    (fst (run Sample.db) = Err TypeError <->
     forall c i, In c (carts Sample.db) -> Cart.login c = "bo"%string ->
                 In i (Cart.items c) ->
                 find_by_id (CartItem.souvenirId i) (souvenirs Sample.db)
                 = None) /\
    (forall e, fst (run Sample.db) = Err e -> e = TypeError) /\
    snd (run Sample.db) = Sample.db.
Proof.
  split; [reflexivity |].
  apply (getCartSum_throws_iff_nothing_joins
           (mkCollections "souvenirs" "carts") Sample.db "bo").
  reflexivity.
Defined.

(** X9. Where [souvenirsCollection] is ['souvenirs'], so that the join of
    [getCartSum] reads the catalog: for a login whose cart has an item that
    refers to a souvenir of the catalog, [getCartSum] returns the sum over
    the items of the cart of price times amount, the items whose souvenir is
    gone counting for nothing. *)
Theorem getCartSum_sums_price_times_amount (names : Collections) (db : Db)
    (login : string) (c : Cart.t) (i : CartItem.t) :
  souvenirsCollection names = "souvenirs"%string ->
  unique_ids (souvenirs db) ->
  unique_logins (carts db) ->
  find_cart login (carts db) = Some c ->
  In i (Cart.items c) ->
  find_by_id (CartItem.souvenirId i) (souvenirs db) <> None ->
  exists run cost,
    getCartSum_under names login = Some run /\
    run db = (Ok cost, db) /\
    cost == cart_total (souvenirs db) c.
Proof.
  intros Hname Hu Hl Hc Hin Hres.
  destruct (getCartSum_total db login c i Hu Hl Hc Hin Hres)
    as (cost & Hrun & Hcost).
  exists (Queries.getCartSum login), cost.
  split; [exact (getCartSum_under_souvenirs names login Hname) |].
  split; [exact Hrun | exact Hcost].
Qed.

Lemma getCartSum_sums_price_times_amount_witness :
  souvenirsCollection (mkCollections "souvenirs" "carts")
  = "souvenirs"%string /\
  unique_ids (souvenirs Sample.db) /\
  unique_logins (carts Sample.db) /\
  find_cart "al" (carts Sample.db)
  = Some (Cart.mk "al" [CartItem.mk 1%N 2; CartItem.mk 9%N 1]) /\
  In (CartItem.mk 1%N 2) [CartItem.mk 1%N 2; CartItem.mk 9%N 1] /\
  find_by_id 1%N (souvenirs Sample.db) <> None /\
  exists run cost,
    getCartSum_under (mkCollections "souvenirs" "carts") "al" = Some run /\
    run Sample.db = (Ok cost, Sample.db) /\
    cost == cart_total (souvenirs Sample.db)
              (Cart.mk "al" [CartItem.mk 1%N 2; CartItem.mk 9%N 1]).
Proof.
  split; [reflexivity |].
  split; [exact sample_unique_ids |].
  split; [exact sample_unique_logins |].
  split; [reflexivity |].
  split; [left; reflexivity |].
  split; [discriminate |].
  apply (getCartSum_sums_price_times_amount
           (mkCollections "souvenirs" "carts") Sample.db "al"
           (Cart.mk "al" [CartItem.mk 1%N 2; CartItem.mk 9%N 1])
           (CartItem.mk 1%N 2) eq_refl sample_unique_ids
           sample_unique_logins).
  - reflexivity.
  - left. reflexivity.
  - discriminate.
Defined.

(** ** The read-only methods *)

(** X10. [getCheapSouvenirs price] returns exactly the souvenirs of the
    catalog whose price is at most [price], a price equal to [price]
    included. *)
Theorem getCheapSouvenirs_price_at_most (price : Q) (db : Db) :
  (forall s, In s (Queries.getCheapSouvenirs price db) <->
             In s (souvenirs db) /\ Souvenir.price s <= price) /\
  (forall s, In s (souvenirs db) -> Souvenir.price s == price ->
             In s (Queries.getCheapSouvenirs price db)).
Proof.
  unfold Queries.getCheapSouvenirs, Mongo.find. split.
  - intros s. rewrite filter_In, Qle_bool_iff. reflexivity.
  - intros s Hin Heq. apply filter_In. split; [exact Hin |].
    apply Qle_bool_iff. rewrite Heq. apply Qle_refl.
Qed.

(** X11. A higher price bound never loses a souvenir: what
    [getCheapSouvenirs p] returns, [getCheapSouvenirs q] returns too when
    [p <= q]; and asking for [p] within the answer for [q] gives the answer
    for [p]. *)
Theorem getCheapSouvenirs_grows_with_price (p q : Q) (db : Db) :
  p <= q ->
  incl (Queries.getCheapSouvenirs p db) (Queries.getCheapSouvenirs q db) /\
  Queries.getCheapSouvenirs p
    (mkDb (Queries.getCheapSouvenirs q db) (carts db))
  = Queries.getCheapSouvenirs p db.
Proof.
  intros Hpq. unfold Queries.getCheapSouvenirs, Mongo.find. simpl. split.
  - intros s Hs. apply filter_In in Hs. destruct Hs as [Hin Hs].
    apply filter_In. split; [exact Hin |].
    apply Qle_bool_iff. apply Qle_bool_iff in Hs.
    eapply Qle_trans; eassumption.
  - induction (souvenirs db) as [| s l IH]; simpl; [reflexivity |].
    destruct (Qle_bool (Souvenir.price s) q) eqn:Eq; simpl.
    + rewrite IH. reflexivity.
    + destruct (Qle_bool (Souvenir.price s) p) eqn:Ep; [| exact IH].
      apply Qle_bool_iff in Ep.
      assert (Hq : Qle_bool (Souvenir.price s) q = true)
        by (apply Qle_bool_iff; eapply Qle_trans; eassumption).
      congruence.
Qed.

Lemma getCheapSouvenirs_grows_with_price_witness :
  3 <= 5 /\
  incl (Queries.getCheapSouvenirs 3 Sample.db)
       (Queries.getCheapSouvenirs 5 Sample.db) /\
  Queries.getCheapSouvenirs 3
    (mkDb (Queries.getCheapSouvenirs 5 Sample.db) (carts Sample.db))
  = Queries.getCheapSouvenirs 3 Sample.db.
Proof.
  split; [discriminate |].
  apply (getCheapSouvenirs_grows_with_price 3 5 Sample.db). discriminate.
Defined.

(** X12. [getSouvenirsByTag tag] goes through the catalog in its order and
    returns one item for each souvenir that has [tag], letter for letter,
    among its tags, and none for the others; the item holds the name, the
    image and the price of the souvenir, and nothing else. *)
Theorem getSouvenirsByTag_lists_tagged (tag : string) (db : Db) :
  Queries.getSouvenirsByTag tag db
  = flat_map (fun s => if in_dec string_dec tag (Souvenir.tags s)
                       then [name_image_price s]
                       else [])
             (souvenirs db) /\
  (forall x, In x (Queries.getSouvenirsByTag tag db) <->
             exists s, In s (souvenirs db) /\ In tag (Souvenir.tags s) /\
                       x = name_image_price s).
Proof.
  assert (Htag : forall s, existsb (String.eqb tag) (Souvenir.tags s) = true
                           <-> In tag (Souvenir.tags s)).
  { intros s. rewrite existsb_exists. split.
    - intros (t & Hin & Heq). apply String.eqb_eq in Heq. subst t. exact Hin.
    - intros Hin. exists tag. split; [exact Hin | apply String.eqb_refl]. }
  unfold Queries.getSouvenirsByTag, Mongo.find. split.
  - induction (souvenirs db) as [| s l IH]; simpl; [reflexivity |].
    destruct (in_dec string_dec tag (Souvenir.tags s)) as [Hin | Hout].
    + apply Htag in Hin. rewrite Hin. simpl. rewrite IH. reflexivity.
    + destruct (existsb (String.eqb tag) (Souvenir.tags s)) eqn:E;
        [| exact IH].
      apply Htag in E. contradiction.
  - intros x. rewrite in_map_iff. split.
    + intros (s & Hx & Hs). apply filter_In in Hs. destruct Hs as [Hin Hs].
      exists s. rewrite <- Htag. auto.
    + intros (s & Hin & Ht & ->). exists s. split; [reflexivity |].
      apply filter_In. rewrite Htag. auto.
Qed.

Lemma counted_iff (country : string) (rating price : Q) (s : Souvenir.t) :
  String.eqb (Souvenir.country s) country
  && Qle_bool rating (Souvenir.rating s)
  && Qle_bool (Souvenir.price s) price = true
  <-> counted country rating price s.
Proof.
  unfold counted.
  rewrite !andb_true_iff, String.eqb_eq, !Qle_bool_iff. tauto.
Qed.

(** X13. [getSouvenrisCount] is [0] exactly when no souvenir of the catalog
    is from the country with a rating of at least [rating] and a price of at
    most [price]; it never exceeds the number of souvenirs
    [getCheapSouvenirs price] returns. *)
Theorem getSouvenrisCount_zero_iff_none (country : string) (rating price : Q)
    (db : Db) :
  (Queries.getSouvenrisCount country rating price db = 0%nat <->
   forall s, In s (souvenirs db) -> ~ counted country rating price s) /\
  (Queries.getSouvenrisCount country rating price db
   <= List.length (Queries.getCheapSouvenirs price db))%nat.
Proof.
  unfold Queries.getSouvenrisCount, Queries.getCheapSouvenirs, Mongo.find.
  split.
  - rewrite length_zero_iff_nil. split.
    + intros Hnil s Hin Hc. apply counted_iff in Hc.
      assert (H : In s []) by (rewrite <- Hnil; apply filter_In; auto).
      contradiction.
    + intros Hnone. apply filter_all_false, Forall_forall.
      intros s Hin. apply not_true_iff_false. intros Hc.
      apply counted_iff in Hc. exact (Hnone s Hin Hc).
  - induction (souvenirs db) as [| s l IH]; simpl; [lia |].
    destruct (Qle_bool (Souvenir.price s) price);
      rewrite ?andb_true_r, ?andb_false_r; simpl.
    + destruct (_ && _); simpl; lia.
    + exact IH.
Qed.

(** X14. [getSouvenrisCount] does not go down when the rating asked for is
    lowered or the price allowed is raised. *)
Theorem getSouvenrisCount_monotone (country : string) (r r' p p' : Q)
    (db : Db) :
  r' <= r -> p <= p' ->
  (Queries.getSouvenrisCount country r p db
   <= Queries.getSouvenrisCount country r' p' db)%nat.
Proof.
  intros Hr Hp. unfold Queries.getSouvenrisCount, Mongo.find.
  induction (souvenirs db) as [| s l IH]; simpl; [lia |].
  match goal with
  | |- context [if ?b then _ else _] => destruct b eqn:E1
  end.
  - apply counted_iff in E1. destruct E1 as (Hc & Hr1 & Hp1).
    assert (E2 : String.eqb (Souvenir.country s) country
                 && Qle_bool r' (Souvenir.rating s)
                 && Qle_bool (Souvenir.price s) p' = true).
    { apply counted_iff. repeat split; [exact Hc | |];
        eapply Qle_trans; eassumption. }
    rewrite E2. simpl. lia.
  - match goal with
    | |- context [if ?b then _ else _] => destruct b
    end; simpl; lia.
Qed.

Lemma getSouvenrisCount_monotone_witness :
  1 <= 3 /\ 5 <= 7 /\
  (Queries.getSouvenrisCount "FR" 3 5 Sample.db
   <= Queries.getSouvenrisCount "FR" 1 7 Sample.db)%nat.
Proof.
  split; [discriminate |]. split; [discriminate |].
  apply (getSouvenrisCount_monotone "FR" 3 1 5 7 Sample.db); discriminate.
Defined.

Lemma limit_incl {D} (n : Z) (docs : list D) :
  incl (Mongo.limit n docs) docs.
Proof.
  destruct (limit_prefix n docs) as [rest Hrest].
  intros d Hd. rewrite Hrest. apply in_or_app. left. exact Hd.
Qed.

Lemma find_all {D} (coll : list D) : Mongo.find (fun _ => true) coll = coll.
Proof.
  unfold Mongo.find. apply forallb_filter_id, forallb_forall. reflexivity.
Qed.

(** X15. Every souvenir a read-only method returns is a souvenir
    [getAllSouvenirs] returns, and [getAllSouvenirs] returns the catalog as
    it is stored. *)
Theorem read_methods_return_catalog_souvenirs (db : Db) :
  Queries.getAllSouvenirs db = souvenirs db /\
  (forall price, incl (Queries.getCheapSouvenirs price db)
                      (Queries.getAllSouvenirs db)) /\
  (forall n, incl (Queries.getTopRatingSouvenirs n db)
                  (Queries.getAllSouvenirs db)) /\
  (forall date, incl (Queries.getDisscusedSouvenirs date db)
                     (Queries.getAllSouvenirs db)) /\
  (forall substring found,
     Queries.searchSouvenirs substring db = Some found ->
     incl found (Queries.getAllSouvenirs db)).
Proof.
  unfold Queries.getAllSouvenirs. rewrite find_all.
  split; [reflexivity |]. repeat split.
  - intros price s Hs. apply filter_In in Hs. apply Hs.
  - intros n s Hs. unfold Queries.getTopRatingSouvenirs in Hs.
    rewrite find_all in Hs. apply limit_incl in Hs.
    eapply Permutation_in; [| exact Hs].
    apply Permutation_sym, RatingSort.Permuted_sort.
  - intros date s Hs. apply filter_In in Hs. apply Hs.
  - intros substring found Hfound s Hs.
    unfold Queries.searchSouvenirs in Hfound.
    destruct (Regex.compile substring); [| discriminate].
    injection Hfound as <-. apply filter_In in Hs. apply Hs.
Qed.

(** X16. With [n > 0] and a catalog that is not empty,
    [getTopRatingSouvenirs n] returns at least one souvenir, and the first
    it returns has a rating no souvenir of the catalog exceeds. *)
Theorem getTopRatingSouvenirs_first_is_best (n : Z) (db : Db) :
  (0 < n)%Z ->
  souvenirs db <> [] ->
  exists best others,
    Queries.getTopRatingSouvenirs n db = best :: others /\
    In best (souvenirs db) /\
    forall s, In s (souvenirs db) -> Souvenir.rating s <= Souvenir.rating best.
Proof.
  intros Hn Hne. unfold Queries.getTopRatingSouvenirs. rewrite find_all.
  pose proof (sort_rating_descending (souvenirs db)) as Hsorted.
  pose proof (RatingSort.Permuted_sort (souvenirs db)) as Hperm.
  destruct (RatingSort.sort (souvenirs db)) as [| best sorted] eqn:Es.
  { apply Permutation_sym, Permutation_nil in Hperm. contradiction. }
  unfold Mongo.limit.
  replace (n =? 0)%Z with false by (symmetry; apply Z.eqb_neq; lia).
  destruct (Z.abs_nat n) as [| k] eqn:Ek; [lia |]. simpl.
  exists best, (firstn k sorted). split; [reflexivity |]. split.
  - eapply Permutation_in; [apply Permutation_sym, Hperm | left; reflexivity].
  - intros s Hs. apply (Permutation_in _ Hperm) in Hs.
    apply StronglySorted_inv in Hsorted. destruct Hsorted as [_ Hall].
    destruct Hs as [<- | Hs]; [apply Qle_refl |].
    rewrite Forall_forall in Hall. exact (Hall s Hs).
Qed.

Lemma getTopRatingSouvenirs_first_is_best_witness :
  (0 < 1)%Z /\
  souvenirs Sample.db <> [] /\
  exists best others,
    Queries.getTopRatingSouvenirs 1%Z Sample.db = best :: others /\
    In best (souvenirs Sample.db) /\
    forall s, In s (souvenirs Sample.db) ->
              Souvenir.rating s <= Souvenir.rating best.
Proof.
  split; [lia |]. split; [discriminate |].
  apply (getTopRatingSouvenirs_first_is_best 1%Z Sample.db);
    [lia | discriminate].
Defined.

(** X17. When [n] is at least the size of the catalog,
    [getTopRatingSouvenirs n] returns the whole catalog, rearranged by
    rating, highest first. *)
Theorem getTopRatingSouvenirs_all_when_n_large (n : Z) (db : Db) :
  (Z.of_nat (List.length (souvenirs db)) <= n)%Z ->
  Permutation (souvenirs db) (Queries.getTopRatingSouvenirs n db) /\
  rating_descending (Queries.getTopRatingSouvenirs n db).
Proof.
  intros Hn. unfold Queries.getTopRatingSouvenirs. rewrite find_all.
  assert (Hall : Mongo.limit n (RatingSort.sort (souvenirs db))
                 = RatingSort.sort (souvenirs db)).
  { unfold Mongo.limit. destruct (n =? 0)%Z; [reflexivity |].
    apply firstn_all2.
    rewrite <- (Permutation_length (RatingSort.Permuted_sort (souvenirs db))).
    lia. }
  rewrite Hall. split.
  - apply RatingSort.Permuted_sort.
  - apply sort_rating_descending.
Qed.

Lemma getTopRatingSouvenirs_all_when_n_large_witness :
  (Z.of_nat (List.length (souvenirs Sample.db)) <= 5)%Z /\
  Permutation (souvenirs Sample.db)
              (Queries.getTopRatingSouvenirs 5%Z Sample.db) /\
  rating_descending (Queries.getTopRatingSouvenirs 5%Z Sample.db).
Proof.
  split; [simpl; lia |].
  apply (getTopRatingSouvenirs_all_when_n_large 5%Z Sample.db). simpl. lia.
Defined.

(** X18. A later date never adds a souvenir: what
    [getDisscusedSouvenirs d'] returns, [getDisscusedSouvenirs d] returns
    too when [d <= d']. *)
Theorem getDisscusedSouvenirs_shrinks_with_date (d d' : Date) (db : Db) :
  (d <= d')%Z ->
  incl (Queries.getDisscusedSouvenirs d' db)
       (Queries.getDisscusedSouvenirs d db).
Proof.
  intros Hd s Hs. unfold Queries.getDisscusedSouvenirs, Mongo.find in *.
  apply filter_In in Hs. destruct Hs as [Hin Hs]. apply filter_In.
  split; [exact Hin |].
  unfold Queries.first_review_since in *.
  destruct (nth_error (Souvenir.reviews s) 0); [| discriminate].
  apply Z.leb_le. apply Z.leb_le in Hs. lia.
Qed.

Lemma getDisscusedSouvenirs_shrinks_with_date_witness :
  (1 <= 5)%Z /\
  incl (Queries.getDisscusedSouvenirs 5%Z Sample.db)
       (Queries.getDisscusedSouvenirs 1%Z Sample.db).
Proof.
  split; [lia |].
  apply (getDisscusedSouvenirs_shrinks_with_date 1%Z 5%Z Sample.db). lia.
Defined.

(** ** [searchSouvenirs] on substrings without metacharacters *)

Local Open Scope string_scope.

Lemma prefix_ci_iff (sub s : string) :
  prefix_ci sub s = true <->
  exists mid post, s = mid ++ post /\ lower_string mid = lower_string sub.
Proof.
  revert s. induction sub as [| a sub IH]; intros s; simpl.
  - split; [| reflexivity]. intros _. exists "", s. auto.
  - destruct s as [| b s].
    + split; [discriminate |].
      intros (mid & post & Hs & Hl). destruct mid; discriminate.
    + rewrite andb_true_iff, Ascii.eqb_eq, IH. split.
      * intros (Hab & mid & post & -> & Hl).
        exists (String b mid), post. simpl. rewrite Hl, Hab. auto.
      * intros (mid & post & Hs & Hl).
        destruct mid as [| c mid]; [discriminate |].
        simpl in Hs, Hl. injection Hs as <- ->. injection Hl as Hc Hl.
        split; [congruence |]. exists mid, post. auto.
Qed.

Lemma contains_ci_iff (sub s : string) :
  contains_ci sub s = true <->
  exists pre mid post,
    s = pre ++ mid ++ post /\ lower_string mid = lower_string sub.
Proof.
  induction s as [| b s IH]; simpl.
  - rewrite orb_false_r, prefix_ci_iff. split.
    + intros (mid & post & Hs & Hl). exists "", mid, post. auto.
    + intros (pre & mid & post & Hs & Hl).
      destruct pre; [| discriminate]. exists mid, post. auto.
  - rewrite orb_true_iff, prefix_ci_iff, IH. split.
    + intros [(mid & post & Hs & Hl) | (pre & mid & post & -> & Hl)].
      * exists "", mid, post. auto.
      * exists (String b pre), mid, post. auto.
    + intros (pre & mid & post & Hs & Hl). destruct pre as [| c pre].
      * left. exists mid, post. auto.
      * right. simpl in Hs. injection Hs as <- ->.
        exists pre, mid, post. auto.
Qed.

(** X19. For a substring of ASCII characters without regular-expression
    metacharacters, [searchSouvenirs] returns, of the souvenirs whose name is
    ASCII, exactly those whose name has somewhere in it a run of characters
    equal to the substring once capital letters are put in lower case on
    both sides.  (Of a name with other characters nothing is said.) *)
Theorem searchSouvenirs_plain_substring (substring : string) (db : Db) :
  plain substring = true ->
  ascii_only substring = true ->
  exists found,
    Queries.searchSouvenirs substring db = Some found /\
    forall s, ascii_only (Souvenir.name s) = true ->
              (In s found <->
               In s (souvenirs db) /\
               exists pre mid post,
                 Souvenir.name s = pre ++ mid ++ post /\
                 lower_string mid = lower_string substring).
Proof.
  intros Hp _. rewrite (searchSouvenirs_plain substring db Hp).
  eexists. split; [reflexivity |].
  intros s _. rewrite filter_In, contains_ci_iff. reflexivity.
Qed.

Lemma searchSouvenirs_plain_substring_witness :
  plain "mu" = true /\
  ascii_only "mu" = true /\
  exists found,
    Queries.searchSouvenirs "mu" Sample.db = Some found /\
    forall s, ascii_only (Souvenir.name s) = true ->
              (In s found <->
               In s (souvenirs Sample.db) /\
               exists pre mid post,
                 Souvenir.name s = pre ++ mid ++ post /\
                 lower_string mid = lower_string "mu").
Proof.
  split; [reflexivity |]. split; [reflexivity |].
  apply (searchSouvenirs_plain_substring "mu" Sample.db); reflexivity.
Defined.

Local Close Scope string_scope.

(** ** [searchSouvenirs] and letter case *)

Ltac by_cases_on_ascii c :=
  destruct c as [[] [] [] [] [] [] [] []]; reflexivity.

Lemma lower_lower (c : ascii) : Regex.lower (Regex.lower c) = Regex.lower c.
Proof. by_cases_on_ascii c. Qed.

Lemma is_meta_lower (c : ascii) :
  Regex.is_meta (Regex.lower c) = Regex.is_meta c.
Proof. by_cases_on_ascii c. Qed.

Lemma is_dot_lower (c : ascii) :
  Ascii.eqb (Regex.lower c) "." = Ascii.eqb c ".".
Proof. by_cases_on_ascii c. Qed.

Lemma compile_lower_string (pattern : string) :
  Regex.compile (lower_string pattern)
  = option_map (map lower_atom) (Regex.compile pattern).
Proof.
  induction pattern as [| c pattern IH]; simpl; [reflexivity |].
  rewrite IH, is_dot_lower, is_meta_lower.
  destruct (Regex.compile pattern); simpl; [| reflexivity].
  destruct (Ascii.eqb c "."); [reflexivity |].
  destruct (Regex.is_meta c); reflexivity.
Qed.

Lemma atom_matches_lower (a : Regex.atom) (c : ascii) :
  Regex.atom_matches (lower_atom a) c = Regex.atom_matches a c.
Proof.
  destruct a; simpl; [| reflexivity]. rewrite lower_lower. reflexivity.
Qed.

Lemma matches_here_lower (re : list Regex.atom) (s : string) :
  Regex.matches_here (map lower_atom re) s = Regex.matches_here re s.
Proof.
  revert s. induction re as [| a re IH]; intros s; simpl; [reflexivity |].
  destruct s; [reflexivity |]. rewrite atom_matches_lower, IH. reflexivity.
Qed.

Lemma search_lower (re : list Regex.atom) (s : string) :
  Regex.search (map lower_atom re) s = Regex.search re s.
Proof.
  induction s as [| c s IH]; simpl; rewrite matches_here_lower;
    [reflexivity |]. rewrite IH. reflexivity.
Qed.

(** X20. The letter case of the substring does not matter to
    [searchSouvenirs]: two substrings that differ only in the case of their
    letters give the same result. *)
Theorem searchSouvenirs_ignores_case_of_substring (p q : string) (db : Db) :
  lower_string p = lower_string q ->
  Queries.searchSouvenirs p db = Queries.searchSouvenirs q db.
Proof.
  intros Hpq.
  pose proof (compile_lower_string p) as Hp.
  pose proof (compile_lower_string q) as Hq.
  rewrite Hpq, Hq in Hp. unfold Queries.searchSouvenirs, Mongo.find.
  destruct (Regex.compile p) as [rp |], (Regex.compile q) as [rq |];
    simpl in Hp; try discriminate; [| reflexivity].
  injection Hp as Hp. f_equal. apply filter_ext. intros s.
  rewrite <- (search_lower rp), <- (search_lower rq), Hp. reflexivity.
Qed.

Lemma searchSouvenirs_ignores_case_of_substring_witness :
  lower_string "MUG" = lower_string "mug" /\
  Queries.searchSouvenirs "MUG" Sample.db
  = Queries.searchSouvenirs "mug" Sample.db.
Proof.
  split; [reflexivity |].
  apply (searchSouvenirs_ignores_case_of_substring "MUG" "mug" Sample.db).
  reflexivity.
Defined.

(** ** [deleteOutOfStockSouvenirs] and the other methods *)

Lemma NoDup_map_filter {D K} (key : D -> K) (f : D -> bool) (l : list D) :
  NoDup (map key l) -> NoDup (map key (filter f l)).
Proof.
  induction l as [| x l IH]; simpl; [auto |].
  intros H. apply NoDup_cons_iff in H. destruct H as [Hx Hl].
  destruct (f x); simpl; [| exact (IH Hl)].
  constructor; [| exact (IH Hl)].
  intros Hin. apply Hx. apply in_map_iff in Hin.
  destruct Hin as (y & Hy & Hin). apply filter_In in Hin.
  rewrite <- Hy. apply in_map, Hin.
Qed.

Lemma unique_key_same {D K} (key : D -> K) (l : list D) (x y : D) :
  NoDup (map key l) -> In x l -> In y l -> key x = key y -> x = y.
Proof.
  induction l as [| z l IH]; simpl; [contradiction |].
  intros H Hx Hy Hk. apply NoDup_cons_iff in H. destruct H as [Hz Hl].
  destruct Hx as [-> | Hx], Hy as [-> | Hy]; auto.
  - exfalso. apply Hz. rewrite Hk. apply in_map, Hy.
  - exfalso. apply Hz. rewrite <- Hk. apply in_map, Hx.
Qed.

Lemma filter_swap {D} (f g : D -> bool) (l : list D) :
  filter f (filter g l) = filter g (filter f l).
Proof.
  induction l as [| x l IH]; simpl; [reflexivity |].
  destruct (f x) eqn:Ef, (g x) eqn:Eg; simpl; rewrite ?Ef, ?Eg, IH;
    reflexivity.
Qed.

(** X21. [deleteOutOfStockSouvenirs] keeps the ids of the catalog unique. *)
Theorem deleteOutOfStockSouvenirs_keeps_unique_ids (db : Db) :
  unique_ids (souvenirs db) ->
  unique_ids (souvenirs (snd (Queries.deleteOutOfStockSouvenirs db))).
Proof.
  unfold unique_ids, Queries.deleteOutOfStockSouvenirs, Mongo.deleteMany.
  simpl. apply NoDup_map_filter.
Qed.

Lemma deleteOutOfStockSouvenirs_keeps_unique_ids_witness :
  unique_ids (souvenirs Sample.db) /\
  unique_ids (souvenirs (snd (Queries.deleteOutOfStockSouvenirs Sample.db))).
Proof.
  split; [exact sample_unique_ids |].
  apply (deleteOutOfStockSouvenirs_keeps_unique_ids Sample.db).
  exact sample_unique_ids.
Defined.

(** X22. After [deleteOutOfStockSouvenirs], the id of a souvenir that was out
    of stock resolves to nothing: [addReview] on it throws a [TypeError] and
    changes nothing. *)
Theorem addReview_after_delete_throws (db : Db) (s : Souvenir.t)
    (review : Queries.ReviewInput) (id : string) (date : Date) :
  unique_ids (souvenirs db) ->
  In s (souvenirs db) ->
  Souvenir.amount s == 0 ->
  let db' := snd (Queries.deleteOutOfStockSouvenirs db) in
  find_by_id (Souvenir._id s) (souvenirs db') = None /\
  Queries.addReview (Souvenir._id s) review id date db' = (Err TypeError, db').
Proof.
  intros Hu Hin Hzero db'.
  assert (Hnone : find_by_id (Souvenir._id s) (souvenirs db') = None).
  { destruct (find_by_id (Souvenir._id s) (souvenirs db')) as [x |] eqn:Hf;
      [| reflexivity].
    exfalso. apply find_some in Hf. destruct Hf as [Hx Hid].
    apply has_id_eq in Hid. subst db'.
    unfold Queries.deleteOutOfStockSouvenirs, Mongo.deleteMany in Hx.
    simpl in Hx. apply filter_In in Hx. destruct Hx as [Hx Hstock].
    assert (x = s) by exact (unique_key_same Souvenir._id _ x s Hu Hx Hin Hid).
    subst x. apply out_of_stock_iff in Hzero. rewrite Hzero in Hstock.
    discriminate. }
  split; [exact Hnone |].
  apply addReview_unresolved, Hnone.
Qed.

Lemma addReview_after_delete_throws_witness :
  unique_ids (souvenirs Sample.db) /\
  In Sample.plate (souvenirs Sample.db) /\
  Souvenir.amount Sample.plate == 0 /\
  let db' := snd (Queries.deleteOutOfStockSouvenirs Sample.db) in
  find_by_id (Souvenir._id Sample.plate) (souvenirs db') = None /\
  Queries.addReview (Souvenir._id Sample.plate) Sample.input "9b2e" 100%Z db'
  = (Err TypeError, db').
Proof.
  split; [exact sample_unique_ids |].
  split; [right; right; left; reflexivity |].
  split; [reflexivity |].
  apply (addReview_after_delete_throws Sample.db Sample.plate Sample.input
           "9b2e" 100%Z sample_unique_ids).
  - right. right. left. reflexivity.
  - reflexivity.
Defined.

(** X23. Deleting first and asking then gives what asking first and dropping
    the out-of-stock souvenirs from the answer gives, for
    [getCheapSouvenirs], [getDisscusedSouvenirs] and [getAllSouvenirs]; so
    after the delete none of them returns an out-of-stock souvenir. *)
Theorem deleteOutOfStockSouvenirs_then_read (db : Db) (price : Q)
    (date : Date) :
  let db' := snd (Queries.deleteOutOfStockSouvenirs db) in
  let in_stock := fun s => negb (Queries.out_of_stock s) in
  Queries.getCheapSouvenirs price db'
  = filter in_stock (Queries.getCheapSouvenirs price db) /\
  Queries.getDisscusedSouvenirs date db'
  = filter in_stock (Queries.getDisscusedSouvenirs date db) /\
  Queries.getAllSouvenirs db' = filter in_stock (Queries.getAllSouvenirs db) /\
  forall s, In s (Queries.getAllSouvenirs db') -> ~ Souvenir.amount s == 0.
Proof.
  intros db' in_stock. subst db'.
  unfold Queries.deleteOutOfStockSouvenirs, Mongo.deleteMany,
    Queries.getCheapSouvenirs, Queries.getDisscusedSouvenirs,
    Queries.getAllSouvenirs. simpl. rewrite !find_all. unfold Mongo.find.
  fold in_stock.
  split; [apply filter_swap |]. split; [apply filter_swap |].
  split; [reflexivity |].
  intros s Hs. apply filter_In in Hs. destruct Hs as [_ Hs].
  unfold in_stock in Hs. apply negb_true_iff in Hs.
  rewrite <- out_of_stock_iff. congruence.
Qed.
